(** * ERSEM golden-reference validation core

    A shallow embedding of the three helper scripts of the repository:

    - [tests/primary_producer/test_ctmi_polynomial.py]: the polynomial CTMI
      temperature response and the Michaelis-Menten uptake;
    - [tests/carbonate_engine/generate_reference.py]: the PyCO2SYS bridge and
      the reference-case table it writes;
    - [github-actions/regen_expected_results.py]: the reduction of a model
      output dataset to the expected-result dictionaries.

    Python's [float] is IEEE-754 binary64.  The numeric code is written once,
    over an interface [PyNum] of the operations the scripts use, and read in
    two ways: over [Q] (exact arithmetic, the mathematical contract the tests
    speak about) and over [PrimFloat.float] (binary64, what the interpreter
    computes).  Exceptions are values of [result]. *)

From Stdlib Require Import ZArith QArith Qabs Qround Lia Lqa Bool List Ascii String.
From Stdlib Require Import Decimal DecimalPos Floats.
From stdpp Require Import gmap strings list fin_maps.
Import ListNotations.

Set Warnings "-inexact-float".
Set Default Proof Using "Type".

(** ** Exceptions *)

Inductive pyexc : Type :=
  | ZeroDivisionError
  | OverflowError
  | KeyError (k : string)
  | IndexError
  | ValueError
  | TypeError
  | AttributeError
  | RuntimeError.

Inductive result (A : Type) : Type :=
  | Ok (a : A)
  | Raise (e : pyexc).
Arguments Ok {A} a.
Arguments Raise {A} e.

#[global] Instance result_ret : MRet result := fun _ a => Ok a.
#[global] Instance result_bind : MBind result := fun _ _ k c =>
  match c with
  | Ok a => k a
  | Raise e => Raise e
  end.
#[global] Instance result_fmap : FMap result := fun _ _ f c =>
  match c with
  | Ok a => Ok (f a)
  | Raise e => Raise e
  end.

(** ** The arithmetic of a Python float, as an interface *)

Class PyNum (F : Type) : Type := {
  f_zero : F;                      (* 0.0 *)
  f_one : F;                       (* 1.0 *)
  f_1e6 : F;                       (* 1e6 *)
  f_1em6 : F;                      (* 1e-6 *)
  f_add : F -> F -> F;
  f_sub : F -> F -> F;
  f_mul : F -> F -> F;
  f_neg : F -> F;
  f_div : F -> F -> result F;      (* x / y, ZeroDivisionError when y == 0 *)
  f_sqr : F -> result F;           (* x ** 2, OverflowError on overflow *)
  f_le : F -> F -> bool;           (* x <= y *)
  f_lt : F -> F -> bool;           (* x < y *)
}.

Definition f_ge {F} `{PyNum F} (x y : F) : bool := f_le y x.
Definition f_gt {F} `{PyNum F} (x y : F) : bool := f_lt y x.

(** The builtins [min(a, b)] and [max(a, b)]: the first argument is kept
    unless the second compares strictly below (above) it. *)
Definition py_min {F} `{PyNum F} (a b : F) : F := if f_lt b a then b else a.
Definition py_max {F} `{PyNum F} (a b : F) : F := if f_gt b a then b else a.

(** ** Growth-limitation kernel (test_ctmi_polynomial.py) *)

Section Kernel.
Context {F : Type} `{PyNum F}.

Local Infix "+" := f_add.
Local Infix "-" := f_sub.
Local Infix "*" := f_mul.

Definition ctmi_coefficients (Tmin Topt Tmax : F) : result (F * F) :=
  let a := Topt - Tmin in
  let b := Topt - Tmax in
  ab2 ← f_sqr (a * b);
  ctmi_a ← f_div (f_neg (a + b)) ab2;
  ctmi_b ← f_div (a * b + (a + b) * Topt) ab2;
  mret (ctmi_a, ctmi_b).

(** The local [et] of [ctmi_eval]: the cubic before it is clamped. *)
Definition ctmi_et (T Tmin Topt Tmax : F) : result F :=
  ab ← ctmi_coefficients Tmin Topt Tmax;
  mret ((T - Tmin) * (T - Tmax) * (ab.1 * T + ab.2)).

Definition ctmi_eval (T Tmin Topt Tmax : F) : result F :=
  if f_le T Tmin || f_ge T Tmax then mret f_zero
  else
    et ← ctmi_et T Tmin Topt Tmax;
    mret (py_max f_zero (py_min f_one et)).

Definition michaelis_menten (S Vmax Ks : F) : result F :=
  f_div (Vmax * S) (Ks + S).
End Kernel.

(** *** Exact arithmetic *)

Definition Qlt_bool (x y : Q) : bool := negb (Qle_bool y x).

Definition Qdiv_py (x y : Q) : result Q :=
  if Qeq_bool y 0 then Raise ZeroDivisionError else Ok (x / y)%Q.

#[global] Instance Q_num : PyNum Q := {|
  f_zero := 0%Q;
  f_one := 1%Q;
  f_1e6 := (1000000 # 1)%Q;
  f_1em6 := (1 # 1000000)%Q;
  f_add := Qplus;
  f_sub := Qminus;
  f_mul := Qmult;
  f_neg := Qopp;
  f_div := Qdiv_py;
  f_sqr := fun x => Ok (x * x)%Q;
  f_le := Qle_bool;
  f_lt := Qlt_bool;
|}.

(** *** Binary64 *)

Definition float_div_py (x y : float) : result float :=
  if PrimFloat.eqb y 0%float then Raise ZeroDivisionError
  else Ok (PrimFloat.div x y).

(** [float_pow] with exponent 2: the correctly rounded square, and
    OverflowError when a finite base gives an infinite result. *)
Definition float_sqr_py (x : float) : result float :=
  let r := PrimFloat.mul x x in
  if PrimFloat.is_infinity r && PrimFloat.is_finite x
  then Raise OverflowError else Ok r.

#[global] Instance float_num : PyNum float := {|
  f_zero := 0%float;
  f_one := 1%float;
  f_1e6 := 1e6%float;
  f_1em6 := 1e-6%float;
  f_add := PrimFloat.add;
  f_sub := PrimFloat.sub;
  f_mul := PrimFloat.mul;
  f_neg := PrimFloat.opp;
  f_div := float_div_py;
  f_sqr := float_sqr_py;
  f_le := PrimFloat.leb;
  f_lt := PrimFloat.ltb;
|}.

(** The parameter tables of the tests: GROUPS_DOC, GROUPS_GOTM and
    GROUPS_EDGE, merged into ALL_GROUPS. *)
Definition ALL_GROUPS : list (float * float * float) :=
  [ (2, 15, 30); (5, 20, 33); (8, 25, 35); (10, 25, 35);
    (0, 12, 25); (10, 25, 35); (5, 20, 33); (8, 25, 35); (10, 25, 35);
    (0, 15, 30); (0, 14.9, 30); (0, 10, 40); (10, 15, 20) ]%float.

(** The same interface with a division that always raises: a computation
    that returns a value under it has performed no division. *)
Definition no_division {F} (N : PyNum F) : PyNum F := {|
  f_zero := f_zero; f_one := f_one; f_1e6 := f_1e6; f_1em6 := f_1em6;
  f_add := f_add; f_sub := f_sub; f_mul := f_mul; f_neg := f_neg;
  f_div := fun _ _ => Raise ZeroDivisionError;
  f_sqr := f_sqr;
  f_le := f_le; f_lt := f_lt;
|}.

(** *** Closed forms in exact arithmetic *)

Local Open Scope Q_scope.

(** The closed form of the cubic, as the source evaluates it. *)
Definition cubic (T Tmin Topt Tmax : Q) : Q :=
  let a := Topt - Tmin in
  let b := Topt - Tmax in
  let ab2 := (a * b) * (a * b) in
  (T - Tmin) * (T - Tmax) *
    (- (a + b) / ab2 * T + (a * b + (a + b) * Topt) / ab2).

Definition clamp01 (x : Q) : Q := py_max 0 (py_min 1 x).

(** With [p = Topt - Tmin] and [n = Tmax - Topt]: the denominator
    [(p n)^2] of the coefficients, the linear factor of the cubic, the
    numerator of the cubic, and the cofactor of [(T - Topt)^2] in
    [(p n)^2 - numerator]. *)
Definition M2 (Tmin Topt Tmax : Q) : Q :=
  ((Topt - Tmin) * (Tmax - Topt)) * ((Topt - Tmin) * (Tmax - Topt)).

Definition lin (Tmin Topt Tmax T : Q) : Q :=
  (Topt - Tmin) * (Tmax - Topt) + ((Topt - Tmin) - (Tmax - Topt)) * (T - Topt).

Definition Np (Tmin Topt Tmax T : Q) : Q :=
  (T - Tmin) * (Tmax - T) * lin Tmin Topt Tmax T.

Definition Kp (Tmin Topt Tmax T : Q) : Q :=
  ((Topt - Tmin) - (Tmax - Topt)) * ((Topt - Tmin) - (Tmax - Topt))
  + (Topt - Tmin) * (Tmax - Topt)
  + ((Topt - Tmin) - (Tmax - Topt)) * (T - Topt).

(** The value of [ctmi_eval] for ordered cardinal temperatures. *)
Definition ctmi_value (Tmin Topt Tmax T : Q) : Q :=
  if f_le T Tmin || f_ge T Tmax then 0 else clamp01 (cubic T Tmin Topt Tmax).


Close Scope Q_scope.

(** *** The tests of the repository, as boolean checks *)

Definition ok_and {A} (c : result A) (P : A -> bool) : bool :=
  match c with Ok v => P v | Raise _ => false end.

Definition float_close (tol x y : float) : bool :=
  PrimFloat.ltb (PrimFloat.abs (PrimFloat.sub x y)) tol.

(** test_f_at_topt_equals_one, test_f_at_tmin_equals_zero and
    test_f_at_tmax_equals_zero, for one group. *)
Definition test_cardinal_points (g : float * float * float) : bool :=
  let '(Tmin, Topt, Tmax) := g in
  ok_and (ctmi_eval Topt Tmin Topt Tmax) (fun v => float_close 1e-12 v 1)
  && ok_and (ctmi_eval Tmin Tmin Topt Tmax) (fun v => PrimFloat.eqb v 0)
  && ok_and (ctmi_eval Tmax Tmin Topt Tmax) (fun v => PrimFloat.eqb v 0).

(** The sample points [lo + (hi - lo) * i / n_points], i = 1 .. n_points - 1. *)
Definition sample_points (lo hi : float) (n_points : nat) : list float :=
  map (fun i : nat =>
         (lo + (hi - lo) * PrimFloat.of_uint63 (Uint63.of_nat i)
               / PrimFloat.of_uint63 (Uint63.of_nat n_points))%float)
      (seq 1 (Nat.pred n_points)).

(** One sweep of test_unimodal: [step prev val] is the assertion. *)
Fixpoint sweep (step : float -> float -> bool) (prev : float)
    (vals : list (result float)) : bool :=
  match vals with
  | [] => true
  | Ok val :: rest => step prev val && sweep step val rest
  | Raise _ :: _ => false
  end.

Definition test_unimodal (g : float * float * float) : bool :=
  let '(Tmin, Topt, Tmax) := g in
  let f T := ctmi_eval T Tmin Topt Tmax in
  sweep (fun prev val => PrimFloat.leb (prev - 1e-10) val)%float 0%float
        (map f (sample_points Tmin Topt 500))
  && sweep (fun prev val => PrimFloat.leb val (prev + 1e-10))%float 1%float
        (map f (sample_points Topt Tmax 500)).

(** ** Equilibrium-oracle bridge (generate_reference.py) *)

Section Bridge.
Context {F : Type} `{PyNum F}.

(** The two entries of the dictionary returned by [pyco2.sys] that the
    script reads. *)
Record solver_output : Type := {
  out_pH_total : F;
  out_pCO2 : F;                  (* micro-atmospheres *)
}.

(** The external solver, called as
    [pyco2.sys(par1=TA, par2=DIC, par1_type=1, par2_type=2, temperature=T,
               salinity=S, pressure=0, **PYCO2_KWARGS)]. *)
Variable pyco2_sys : F -> F -> F -> F -> result solver_output.

Record reference_case : Type := {
  rc_T : F;
  rc_S : F;
  rc_DIC_molkg : F;
  rc_TA_molkg : F;
  rc_pH_total : F;
  rc_pCO2_atm : F;
}.

(** The body of the loop over TEST_CASES. *)
Definition reference_case_of (tc : F * F * F * F) : result reference_case :=
  let '(T, S_, DIC_molkg, TA_molkg) := tc in
  let DIC_umolkg := f_mul DIC_molkg f_1e6 in
  let TA_umolkg := f_mul TA_molkg f_1e6 in
  r ← pyco2_sys TA_umolkg DIC_umolkg T S_;
  let pH_total := out_pH_total r in
  let pCO2_uatm := out_pCO2 r in
  let pCO2_atm := f_mul pCO2_uatm f_1em6 in
  mret {| rc_T := T; rc_S := S_; rc_DIC_molkg := DIC_molkg;
          rc_TA_molkg := TA_molkg; rc_pH_total := pH_total;
          rc_pCO2_atm := pCO2_atm |}.

Fixpoint generate_reference_cases (cases : list (F * F * F * F))
    : result (list reference_case) :=
  match cases with
  | [] => mret []
  | tc :: rest =>
      r ← reference_case_of tc;
      rs ← generate_reference_cases rest;
      mret (r :: rs)
  end.

(** A value taken to micro-units and back with the two factors of the
    script. *)
Definition unit_round_trip (x : F) : F := f_mul (f_mul x f_1e6) f_1em6.
End Bridge.

Arguments solver_output : clear implicits.
Arguments reference_case : clear implicits.

(** A stand-in for the external solver: it returns its TA argument as pCO2
    and a fixed pH. *)
Definition echo_solver (TA DIC T S : Q) : result (solver_output Q) :=
  Ok {| out_pH_total := (8 # 1)%Q; out_pCO2 := TA |}.

(** ** Field-extraction pipeline (regen_expected_results.py) *)

(** *** Arrays

    A numpy array is its shape and its values in row-major order.  The model
    covers the operations the script applies to the variables of a dataset;
    a numpy scalar is an array of shape []. *)

Record ndarray : Type := {
  shape : list nat;
  elems : list Q;
}.

Definition ndim (a : ndarray) : nat := length (shape a).

Definition size_of (sh : list nat) : nat := fold_right Nat.mul 1 sh.

(** [a.squeeze()] *)
Definition squeeze (a : ndarray) : ndarray :=
  {| shape := List.filter (fun n => negb (n =? 1)) (shape a); elems := elems a |}.

(** [a[i]] for an integer [i]; a negative index counts from the end. *)
Definition index0 (a : ndarray) (i : Z) : result ndarray :=
  match shape a with
  | [] => Raise IndexError
  | n :: sh =>
      let i' := if (i <? 0)%Z then (i + Z.of_nat n)%Z else i in
      if (0 <=? i')%Z && (i' <? Z.of_nat n)%Z then
        Ok {| shape := sh;
              elems := take (size_of sh) (drop (Z.to_nat i' * size_of sh) (elems a)) |}
      else Raise IndexError
  end.

(** [a[i, :]]: two indices need two axes. *)
Definition index_row (a : ndarray) (i : Z) : result ndarray :=
  if ndim a <? 2 then Raise IndexError else index0 a i.

(** [a[i, j]] *)
Definition index2 (a : ndarray) (i j : Z) : result ndarray :=
  if ndim a <? 2 then Raise IndexError
  else r ← index0 a i; index0 r j.

(** [a.shape[0]] *)
Definition shape0 (a : ndarray) : result nat :=
  match shape a with
  | [] => Raise IndexError
  | n :: _ => Ok n
  end.

(** [float(a)] *)
Definition float_of (a : ndarray) : result Q :=
  match elems a with
  | [x] => Ok x
  | _ => Raise TypeError
  end.

(** [c + a] for a Python float [c] *)
Definition scalar_add (c : Q) (a : ndarray) : ndarray :=
  {| shape := shape a; elems := map (Qplus c) (elems a) |}.

(** *** numpy.interp

    One-dimensional piecewise-linear interpolation over sample points [xp]
    that numpy expects to be increasing: below [xp[0]] the value is [fp[0]],
    above [xp[-1]] it is [fp[-1]], and on a sample point it is the sample. *)

Fixpoint interp_from (x : Q) (xp fp : list Q) : Q :=
  match xp, fp with
  | x0 :: ((x1 :: _) as xp'), y0 :: ((y1 :: _) as fp') =>
      if Qlt_bool x x1 then
        if Qeq_bool x0 x then y0
        else ((y1 - y0) / (x1 - x0) * (x - x0) + y0)%Q
      else interp_from x xp' fp'
  | _ :: _, y0 :: _ => y0
  | _, _ => 0%Q
  end.

Definition interp1 (x : Q) (xp fp : list Q) : Q :=
  match xp, fp with
  | x0 :: _, y0 :: _ => if Qlt_bool x x0 then y0 else interp_from x xp fp
  | _, _ => 0%Q
  end.

Definition interp (x xp fp : ndarray) : result ndarray :=
  if negb (ndim xp =? 1) || negb (ndim fp =? 1) then Raise ValueError
  else if length (elems xp) =? 0 then Raise ValueError
  else if negb (length (elems fp) =? length (elems xp)) then Raise ValueError
  else Ok {| shape := shape x;
             elems := map (fun xv => interp1 xv (elems xp) (elems fp)) (elems x) |}.

(** *** The dataset and the result dictionary *)

(** A netCDF variable: its values and the two attributes the script reads
    from the time axis. *)
Record variable : Type := {
  var_values : ndarray;
  var_units : option string;
  var_calendar : option string;
}.

Inductive model_run : Type := gotm | fabm0d.
Inductive result_key : Type := expected | expected_state.

#[global] Instance model_run_eq_dec : EqDecision model_run.
Proof. solve_decision. Defined.
#[global] Instance result_key_eq_dec : EqDecision result_key.
Proof. solve_decision. Defined.

(** What the script stores under a field name. *)
Inductive pyval : Type :=
  | VDates (ds : list string)        (* a list of date strings *)
  | VSeries (xs : list ndarray)      (* a list of interpolated values *)
  | VArray (a : ndarray)
  | VFloat (x : Q).

Definition state_vars : list string :=
  [ "N1_p"; "N3_n"; "N4_n"; "N5_s"; "O2_o"; "O3_c"; "O3_bioalk"; "R1_c"; "R1_n";
    "R1_p"; "R2_c"; "R3_c"; "R4_c"; "R4_n"; "R4_p"; "R6_c"; "R6_n"; "R6_p";
    "R6_s"; "R8_c"; "R8_n"; "R8_p"; "R8_s"; "B1_c"; "B1_n"; "B1_p"; "P1_c";
    "P1_n"; "P1_p"; "P1_Chl"; "P1_s"; "P2_c"; "P2_n"; "P2_p"; "P2_Chl"; "P3_c";
    "P3_n"; "P3_p"; "P3_Chl"; "P4_c"; "P4_n"; "P4_p"; "P4_Chl"; "Z4_c"; "Z5_c";
    "Z5_n"; "Z5_p"; "Z6_c"; "Z6_n"; "Z6_p"; "L2_c"; "Q1_c"; "Q1_p"; "Q1_n";
    "Q6_c"; "Q6_p"; "Q6_n"; "Q6_s"; "Q6_pen_depth_c"; "Q6_pen_depth_n";
    "Q6_pen_depth_p"; "Q6_pen_depth_s"; "Q7_c"; "Q7_p"; "Q7_n"; "Q7_pen_depth_c";
    "Q7_pen_depth_n"; "Q7_pen_depth_p"; "Q17_c"; "Q17_p"; "Q17_n"; "bL2_c";
    "ben_col_D1m"; "ben_col_D2m"; "K1_p"; "K3_n"; "K4_n"; "K5_s"; "G2_o";
    "G2_o_deep"; "G3_c"; "ben_nit_G4n"; "H1_c"; "H2_c"; "Y2_c"; "Y3_c";
    "Y4_c" ]%string.

Definition data_dict (m : model_run) : list (result_key * list string) :=
  match m with
  | gotm =>
      [ (expected, ["dates"; "N1_p"; "N3_n"; "N5_s"]%string);
        (expected_state, state_vars) ]
  | fabm0d =>
      [ (expected, ["dates"; "light_parEIR"; "temp"; "salt"; "N1_p"; "N3_n";
                    "B1_c"; "P2_c"]%string) ]
  end.

Fixpoint mapM {A B} (f : A -> result B) (l : list A) : result (list B) :=
  match l with
  | [] => Ok []
  | a :: l' => b ← f a; bs ← mapM f l'; mret (b :: bs)
  end.

(** [s.split(sep)[0]] for a one-character separator *)
Fixpoint before_sep (sep : ascii) (s : string) : string :=
  match s with
  | EmptyString => EmptyString
  | String c s' => if Ascii.eqb c sep then EmptyString else String c (before_sep sep s')
  end.

Section Pipeline.
(** [nc.num2date(values, units=..., calendar=...)], each date rendered by
    [str]. *)
Variable num2date : list Q -> string -> string -> result (list string).

Variable data : gmap string variable.
Variable run : model_run.

(** [data.variables[v]] *)
Definition variables (v : string) : result variable :=
  match data !! v with
  | Some x => Ok x
  | None => Raise (KeyError v)
  end.

Definition attribute (a : option string) : result string :=
  match a with
  | Some s => Ok s
  | None => Raise AttributeError
  end.

(** [expected_results[v]] *)
Definition stored (expected_results : gmap string pyval) (v : string)
    : result pyval :=
  match expected_results !! v with
  | Some x => Ok x
  | None => Raise (KeyError v)
  end.

(** [x[-1, :]] for a stored value [x] *)
Definition last_row (x : pyval) : result pyval :=
  match x with
  | VArray a => VArray <$> index_row a (-1)
  | _ => Raise TypeError
  end.

(** The body of the [try] for one field: the value to store under [v]. *)
Definition extract (key : result_key) (expected_results : gmap string pyval)
    (v : string) : result pyval :=
  if decide (v = "dates"%string) then
    times ← variables "time";
    units ← attribute (var_units times);
    calendar ← attribute (var_calendar times);
    dates ← num2date (elems (var_values times)) units calendar;
    mret (VDates (map (before_sep " ") dates))
  else if decide (key = expected /\ run = gotm) then
    let depth := 0%Q in
    var ← variables v;
    zi ← squeeze <$> (var_values <$> variables "zi");
    z ← squeeze <$> (var_values <$> variables "z");
    n ← shape0 (var_values var);
    var_time_series ←
      mapM (fun i : nat =>
              zi_last ← index2 zi (Z.of_nat i) (-1);
              let depth_offset := scalar_add depth zi_last in
              zrow ← index_row z (Z.of_nat i);
              vrow ← index_row (var_values var) (Z.of_nat i);
              interp depth_offset zrow (squeeze vrow))
           (seq 0 n);
    mret (VSeries var_time_series)
  else
    var ← variables v;
    if ndim (var_values var) =? 4 then
      if decide (run = fabm0d) then mret (VArray (squeeze (var_values var)))
      else x ← stored expected_results v; last_row x
    else if ndim (var_values var) =? 3 then
      if decide (run = fabm0d) then mret (VArray (squeeze (var_values var)))
      else
        last ← index0 (squeeze (var_values var)) (-1);
        VFloat <$> float_of last
    else Raise RuntimeError.

(** What one field contributes when it is extracted on its own, from an
    empty dictionary. *)
Definition outcome (key : result_key) (v : string) : option pyval :=
  match extract key ∅ v with Ok x => Some x | Raise _ => None end.

(** The loop over the fields of one key: the dictionary that is dumped and
    the fields reported by [print("Did not update ...")], latest first. *)
Definition step (key : result_key)
    (st : gmap string pyval * list (string * pyexc)) (v : string)
    : gmap string pyval * list (string * pyexc) :=
  match extract key st.1 v with
  | Ok x => (<[v := x]> st.1, st.2)
  | Raise e => (st.1, (v, e) :: st.2)
  end.

Definition extract_all (key : result_key) (items : list string)
    : gmap string pyval * list (string * pyexc) :=
  fold_left (step key) items (∅, []).

(** One dumped dictionary per key of [data_dict]. *)
Definition regen_expected_results
    : list (result_key * (gmap string pyval * list (string * pyexc))) :=
  map (fun ki => (ki.1, extract_all ki.1 ki.2)) (data_dict run).
End Pipeline.

(** The sample points are increasing. *)
Fixpoint increasing (xp : list Q) : Prop :=
  match xp with
  | x0 :: ((x1 :: _) as xp') => (x0 <= x1)%Q /\ increasing xp'
  | _ => True
  end.

(** Row [i] of an array read as [nt] rows of [L] values. *)
Definition row_of (a : ndarray) (L i : nat) : list Q :=
  take L (drop (i * L) (elems a)).

(** The value the profile branch appends for timestep [i]: the field's row
    interpolated against the layer centres at [depth + zi[i, -1]]. *)
Definition interpolated (zi z var : ndarray) (L1 L i : nat) : ndarray :=
  {| shape := [];
     elems := map (fun d => interp1 (0 + d) (row_of z L i) (row_of var L i))
                  (take 1 (drop (L1 - 1) (row_of zi L1 i))) |}.

(** ** A small profile dataset

    Three timesteps, three layers with centres z = [0, 5, 10] and four
    interfaces, the last at 5, -1 and 12; a rank-4 field N1_p with the
    profiles [1, 2, 3], [1, 2, 3] and [1, 2, 4], and a rank-3 field G2_o. *)

Definition mk_array (sh : list nat) (xs : list Q) : ndarray :=
  {| shape := sh; elems := xs |}.

Definition plain (a : ndarray) : variable :=
  {| var_values := a; var_units := None; var_calendar := None |}.

Definition sample_profile : gmap string variable :=
  <["time"%string :=
      {| var_values := mk_array [3] [0; 86400; 172800]%Q;
         var_units := Some "seconds since 2000-01-01 00:00:00"%string;
         var_calendar := Some "standard"%string |}]>
  (<["z"%string := plain (mk_array [3; 3; 1; 1] [0; 5; 10; 0; 5; 10; 0; 5; 10]%Q)]>
  (<["zi"%string := plain (mk_array [3; 4; 1; 1]
                             [-3; 2; 7; 5; -3; 2; 7; -1; -3; 2; 7; 12]%Q)]>
  (<["N1_p"%string := plain (mk_array [3; 3; 1; 1] [1; 2; 3; 1; 2; 3; 1; 2; 4]%Q)]>
  (<["G2_o"%string := plain (mk_array [3; 1; 1] [7; 8; 9]%Q)]> ∅)))).

(** A stand-in for [nc.num2date]: midnight of 1 January 2000 for each
    timestamp. *)
Definition sample_num2date (ts : list Q) (units calendar : string)
    : result (list string) :=
  Ok (map (fun _ => "2000-01-01 00:00:00"%string) ts).



(** ** The reference-case table *)

(** Text is a list of characters. *)
Definition text : Type := list ascii.

Definition digit_char (v : Z) : ascii :=
  ascii_of_nat (48 + Z.to_nat (v mod 10)).

(** The decimal digits of a natural number, most significant first. *)
Fixpoint uint_chars (u : uint) : text :=
  match u with
  | Nil => []
  | D0 u => "0"%char :: uint_chars u
  | D1 u => "1"%char :: uint_chars u
  | D2 u => "2"%char :: uint_chars u
  | D3 u => "3"%char :: uint_chars u
  | D4 u => "4"%char :: uint_chars u
  | D5 u => "5"%char :: uint_chars u
  | D6 u => "6"%char :: uint_chars u
  | D7 u => "7"%char :: uint_chars u
  | D8 u => "8"%char :: uint_chars u
  | D9 u => "9"%char :: uint_chars u
  end.

Definition digits_of (v : Z) : text := uint_chars (N.to_uint (Z.to_N v)).

(** The last [k] decimal digits of [v], zero-padded. *)
Fixpoint digits_fixed (k : nat) (v : Z) : text :=
  match k with
  | 0 => []
  | S k' => digits_fixed k' (v / 10) ++ [digit_char v]
  end.

(** Rounding to the nearest integer, ties to even, as the float formatter
    rounds the exact value. *)
Definition round_half_even (q : Q) : Z :=
  let f := Qfloor q in
  let twice_rest := (2 * (q - inject_Z f))%Q in
  if Qlt_bool twice_rest 1 then f
  else if Qlt_bool 1 twice_rest then (f + 1)%Z
  else if Z.even f then f else (f + 1)%Z.

Definition sign_of (x : Q) : text := if Qlt_bool x 0 then ["-"%char] else [].

(** [format(x, '.<prec>f')] *)
Definition format_f (prec : nat) (x : Q) : text :=
  let scale := (10 ^ Z.of_nat prec)%Z in
  let m := round_half_even (Qabs x * inject_Z scale) in
  sign_of x ++ digits_of (m / scale)
    ++ (if prec =? 0 then [] else "."%char :: digits_fixed prec m).

(** The decimal exponent of a positive rational: the largest [e] with
    [10 ^ e <= q]. *)
Definition exponent10 (q : Q) : Z :=
  let e0 := (Z.of_nat (nb_digits (N.to_uint (Z.to_N (Qnum q))))
             - Z.of_nat (nb_digits (Pos.to_uint (Qden q))))%Z in
  if Qle_bool (10 ^ e0) q then e0 else (e0 - 1)%Z.

Definition exponent_digits (e : Z) : text :=
  if (Z.abs e <? 10)%Z then ["0"%char; digit_char (Z.abs e)] else digits_of (Z.abs e).

(** [format(x, '.<prec>e')] *)
Definition format_e (prec : nat) (x : Q) : text :=
  let scale := (10 ^ Z.of_nat prec)%Z in
  let '(m, e) :=
    if Qeq_bool x 0 then (0%Z, 0%Z)
    else
      let e := exponent10 (Qabs x) in
      let m := round_half_even (Qabs x / 10 ^ (e - Z.of_nat prec)) in
      if (m <? 10 * scale)%Z then (m, e) else ((m / 10)%Z, (e + 1)%Z) in
  sign_of x ++ digit_char (m / scale)
    :: (if prec =? 0 then [] else "."%char :: digits_fixed prec m)
    ++ "e"%char :: (if (e <? 0)%Z then "-"%char else "+"%char) :: exponent_digits e.


(** [s.split(sep)] *)
Fixpoint split_on (sep : ascii) (s : text) : list text :=
  match s with
  | [] => [[]]
  | c :: s' =>
      if Ascii.eqb c sep then [] :: split_on sep s'
      else match split_on sep s' with
           | [] => [[c]]
           | p :: ps => (c :: p) :: ps
           end
  end.

Definition is_digit (c : ascii) : bool :=
  (48 <=? nat_of_ascii c) && (nat_of_ascii c <=? 57).

(** The digits of the mantissa: the digit characters before the 'e'. *)
Fixpoint significant_digits (s : text) : nat :=
  match s with
  | [] => 0
  | c :: s' =>
      if Ascii.eqb c "e" then 0
      else if is_digit c then S (significant_digits s') else significant_digits s'
  end.

Section Writer.
(** [str(x)] of a float, as the f-string renders T and S. *)
Variable repr : Q -> text.

Definition comma : text := [","%char].

(** One data row of the table, with its newline. *)
Definition csv_row (r : reference_case Q) : text :=
  repr (rc_T r) ++ comma ++ repr (rc_S r) ++ comma
    ++ format_f 6 (rc_DIC_molkg r) ++ comma
    ++ format_f 6 (rc_TA_molkg r) ++ comma
    ++ format_f 3 (rc_pH_total r) ++ comma
    ++ format_e 3 (rc_pCO2_atm r) ++ ["010"%char].

Definition csv_header : list text :=
  map list_ascii_of_string
    [ "# Reference test cases for carbonate_engine" ++ String "010" "";
      "# Generated using PyCO2SYS with: K1K2=10 (Millero 2010), KSO4=1 (Dickson 1990), KF=2 (Perez & Fraga 1987)" ++ String "010" "";
      "# Total pH scale, surface pressure (0 bar gauge)" ++ String "010" "";
      "# Columns: T(degC), S(PSU), DIC(mol/kg), TA(mol/kg), pH_total, pCO2(atm)" ++ String "010" "";
      "# Note: pCO2 values are in atm (not uatm)" ++ String "010" "" ]%string.

(** The sequence of [f.write] calls. *)
Definition write_reference_cases (results : list (reference_case Q)) : list text :=
  csv_header ++ map csv_row results.
End Writer.

(** *** Shapes of the formatted numbers *)

Definition all_digits (s : text) : Prop := Forall (fun c => is_digit c = true) s.

(** sign, integer digits, a point and [k] decimals *)
Definition fixed_shape (k : nat) (s : text) : Prop :=
  exists sign ip fp,
    s = sign ++ ip ++ "."%char :: fp /\
    (sign = [] \/ sign = ["-"%char]) /\
    ip <> [] /\ all_digits ip /\ all_digits fp /\ length fp = k.

(** sign, one digit, a point, [k] decimals, 'e', a sign and at least two
    exponent digits *)
Definition scientific_shape (k : nat) (s : text) : Prop :=
  exists sign d fp es ed,
    s = sign ++ d :: "."%char :: fp ++ "e"%char :: es :: ed /\
    (sign = [] \/ sign = ["-"%char]) /\
    is_digit d = true /\ all_digits fp /\ length fp = k /\
    (es = "+"%char \/ es = "-"%char) /\ all_digits ed /\ 2 <= length ed.

Definition no_comma (s : text) : Prop := ~ In ","%char s.

(** The claim about the pCO2 column, as the specification words it: three
    significant digits. *)
Definition three_significant_digits (x : Q) : Prop :=
  significant_digits (format_e 3 x) = 3.

Definition sample_case : reference_case Q :=
  {| rc_T := 25%Q; rc_S := 35%Q;
     rc_DIC_molkg := (21 # 10000)%Q; rc_TA_molkg := (23 # 10000)%Q;
     rc_pH_total := (8046 # 1000)%Q; rc_pCO2_atm := (4123 # 10000000)%Q |}.

(** *** The remaining tests and the runner

    A test function is modelled by a boolean: [true] when the call returns,
    [false] when an assertion fails or another exception is raised. *)

(** A non-negative [int] below 2^63 converted to [float]. *)
Definition float_of_int (n : Z) : float := PrimFloat.of_uint63 (Uint63.of_Z n).

(** [range(start, start + count)] *)
Fixpoint range_from (start : Z) (count : nat) : list Z :=
  match count with
  | 0 => []
  | S count' => start :: range_from (start + 1) count'
  end.

(** [lo + (hi - lo) * i / n_points] for [i in range(n_points + 1)] *)
Definition sweep_points (lo hi : float) (n_points : Z) : list float :=
  map (fun i : Z => (lo + (hi - lo) * float_of_int i / float_of_int n_points)%float)
      (range_from 0 (Z.to_nat (n_points + 1))).

Definition in_unit_interval (val : float) : bool :=
  PrimFloat.leb 0 val && PrimFloat.leb val 1.

Definition test_f_at_topt_equals_one : bool :=
  forallb (fun '(Tmin, Topt, Tmax) =>
             ok_and (ctmi_eval Topt Tmin Topt Tmax)
                    (fun val => PrimFloat.ltb (PrimFloat.abs (val - 1)) 1e-12))
          ALL_GROUPS.

Definition test_f_at_tmin_equals_zero : bool :=
  forallb (fun '(Tmin, Topt, Tmax) =>
             ok_and (ctmi_eval Tmin Tmin Topt Tmax) (fun val => PrimFloat.eqb val 0))
          ALL_GROUPS.

Definition test_f_at_tmax_equals_zero : bool :=
  forallb (fun '(Tmin, Topt, Tmax) =>
             ok_and (ctmi_eval Tmax Tmin Topt Tmax) (fun val => PrimFloat.eqb val 0))
          ALL_GROUPS.

Definition test_f_bounded_zero_one : bool :=
  forallb (fun '(Tmin, Topt, Tmax) =>
             forallb (fun T => ok_and (ctmi_eval T Tmin Topt Tmax) in_unit_interval)
                     (sweep_points Tmin Tmax 1000))
          ALL_GROUPS.

Definition test_f_outside_range_is_zero : bool :=
  forallb (fun '(Tmin, Topt, Tmax) =>
             forallb (fun T => ok_and (ctmi_eval T Tmin Topt Tmax)
                                      (fun val => PrimFloat.eqb val 0))
                     [Tmin - 10; Tmin - 1; Tmin; Tmax; Tmax + 1; Tmax + 10]%float)
          ALL_GROUPS.

Definition test_f_prime_at_topt_is_zero : bool :=
  let h := 1e-6%float in
  forallb (fun '(Tmin, Topt, Tmax) =>
             ok_and (fp ← ctmi_eval (Topt + h)%float Tmin Topt Tmax;
                     fm ← ctmi_eval (Topt - h)%float Tmin Topt Tmax;
                     f_div (fp - fm)%float (float_of_int 2 * h)%float)
                    (fun deriv => PrimFloat.ltb (PrimFloat.abs deriv) 1e-4))
          ALL_GROUPS.

Definition test_no_singularity_below_midpoint : bool :=
  forallb (fun '(Tmin, Topt, Tmax) =>
             ok_and (f_div (Tmin + Tmax)%float 2%float)
                    (fun midpoint => PrimFloat.ltb Topt midpoint)
             && forallb (fun T =>
                           ok_and (ctmi_eval T Tmin Topt Tmax)
                                  (fun val => PrimFloat.is_finite val
                                              && in_unit_interval val))
                        (sweep_points Tmin Tmax 10000))
          [ (2, 15, 30); (0, 12, 25); (0, 5, 40) ]%float.

(** The loop of test_maximum_at_topt: [(max_val, max_T)], or [None] once a
    call has raised. *)
Definition track_maximum (Tmin Topt Tmax : float) (st : option (float * float))
    (T : float) : option (float * float) :=
  match st with
  | None => None
  | Some (max_val, max_T) =>
      match ctmi_eval T Tmin Topt Tmax with
      | Ok val => if PrimFloat.ltb max_val val then Some (val, T)
                  else Some (max_val, max_T)
      | Raise _ => None
      end
  end.

Definition test_maximum_at_topt : bool :=
  forallb (fun '(Tmin, Topt, Tmax) =>
             match fold_left (track_maximum Tmin Topt Tmax)
                             (sweep_points Tmin Tmax 1000) (Some (0%float, Tmin)) with
             | Some (max_val, max_T) =>
                 PrimFloat.ltb (PrimFloat.abs (max_T - Topt))
                               ((Tmax - Tmin) / float_of_int 1000 * float_of_int 2)
                 && PrimFloat.ltb (PrimFloat.abs (max_val - 1)) 1e-6
             | None => false
             end)
          ALL_GROUPS.

Definition test_mm_at_ks_equals_half_vmax : bool :=
  forallb (fun Ks : float =>
             ok_and (michaelis_menten Ks 1%float Ks)
                    (fun V => PrimFloat.ltb (PrimFloat.abs (V - 0.5)) 1e-12))
          [0.1; 0.5; 1; 5; 10]%float.

Definition test_mm_saturation : bool :=
  ok_and (michaelis_menten 1000%float 2%float 1%float)
         (fun V => PrimFloat.ltb (PrimFloat.abs (V - 2)) 0.01).

Definition test_mm_zero_substrate : bool :=
  ok_and (michaelis_menten 0%float 1%float 1%float) (fun V => PrimFloat.eqb V 0).

Definition test_mm_positive_ks_prevents_divzero : bool :=
  forallb (fun Ks : float =>
             ok_and (michaelis_menten 0%float 1%float Ks) PrimFloat.is_finite)
          [1e-6; 0.001; 0.5; 1]%float.

(** The two tables of expected values: [(T, exp_val)] with an integer [T]. *)
Definition expected_values (Tmin Topt Tmax : float) (expected : list (Z * float))
    : bool :=
  forallb (fun '(T, exp_val) =>
             ok_and (ctmi_eval (float_of_int T) Tmin Topt Tmax)
                    (fun val => PrimFloat.ltb (PrimFloat.abs (val - exp_val)) 0.01))
          expected.

Definition test_expected_values_p1 : bool :=
  expected_values 2 15 30
    [ (5, 0.42%float); (10, 0.86%float); (15, 1.00%float); (20, 0.88%float);
      (25, 0.53%float); (28, 0.23%float) ]%Z.

Definition test_expected_values_p2 : bool :=
  expected_values 5 20 33
    [ (10, 0.53%float); (15, 0.88%float); (20, 1.00%float); (25, 0.86%float);
      (30, 0.42%float) ]%Z.

(** The functions of the module whose name starts with test_, in the order
    of their definition. *)
Definition test_functions : list bool :=
  [ test_f_at_topt_equals_one; test_f_at_tmin_equals_zero;
    test_f_at_tmax_equals_zero; test_f_bounded_zero_one;
    test_f_outside_range_is_zero; test_f_prime_at_topt_is_zero;
    test_no_singularity_below_midpoint; test_maximum_at_topt;
    forallb test_unimodal ALL_GROUPS;
    test_mm_at_ks_equals_half_vmax; test_mm_saturation; test_mm_zero_substrate;
    test_mm_positive_ks_prevents_divzero;
    test_expected_values_p1; test_expected_values_p2 ].

(** [run_all_tests]: the counters [passed] and [failed], and the returned
    [failed == 0]. *)
Definition run_all_tests (tests : list bool) : nat * nat * bool :=
  let '(passed, failed) :=
    fold_left (fun '(passed, failed) (t : bool) =>
                 if t then (S passed, failed) else (passed, S failed))
              tests (0, 0) in
  (passed, failed, failed =? 0).

(** ** Reading the table back (verify_format) *)

Definition LF : ascii := "010"%char.
Definition CR : ascii := "013"%char.

(** The content of a file after a sequence of [f.write] calls; the file is
    opened with [newline=''], so nothing is translated. *)
Definition file_content (writes : list text) : text := concat writes.

(** Reading in text mode with the default [newline=None]: "\r\n" and a lone
    "\r" are read as "\n". *)
Fixpoint universal_newlines (s : text) : text :=
  match s with
  | [] => []
  | c :: s' =>
      if Ascii.eqb c CR then
        LF :: match s' with
              | c' :: s'' =>
                  if Ascii.eqb c' LF then universal_newlines s''
                  else universal_newlines s'
              | [] => []
              end
      else c :: universal_newlines s'
  end.

(** [for line in f]: the lines with their terminators; a last line without
    one is a line too. *)
Fixpoint file_lines (s : text) : list text :=
  match s with
  | [] => []
  | c :: s' =>
      if Ascii.eqb c LF then [c] :: file_lines s'
      else match file_lines s' with
           | [] => [[c]]
           | l :: ls => (c :: l) :: ls
           end
  end.

(** [str.isspace] on the characters below 256: tab to carriage return, the
    four separators 28 to 31, the space, NEL and the no-break space. *)
Definition is_space (c : ascii) : bool :=
  let n := nat_of_ascii c in
  ((9 <=? n) && (n <=? 13)) || ((28 <=? n) && (n <=? 32))
  || (n =? 133) || (n =? 160).

Fixpoint lstrip (s : text) : text :=
  match s with
  | c :: s' => if is_space c then lstrip s' else s
  | [] => []
  end.

Definition rstrip (s : text) : text := rev (lstrip (rev s)).

(** [s.strip()] *)
Definition strip (s : text) : text := rstrip (lstrip s).

Inductive line_status : Type :=
  | Skipped                    (* blank or comment: [continue] *)
  | ColumnError (n : nat)      (* "Expected 6 columns, got n" *)
  | ParseError                 (* ValueError from [float] *)
  | Verified.                  (* [count += 1] *)

Section Reader.
(** [float(s)] for a string; [None] is ValueError. *)
Variable py_float : text -> option Q.

(** The body of the loop over the lines of the file. *)
Definition verify_line (line : text) : line_status :=
  let line := strip line in
  match line with
  | [] => Skipped
  | c :: _ =>
      if Ascii.eqb c "#" then Skipped
      else
        let parts := split_on "," line in
        match parts with
        | [p0; p1; p2; p3; p4; p5] =>
            match (T ← py_float p0; S ← py_float p1; DIC ← py_float p2;
                   TA ← py_float p3; pH ← py_float p4; pCO2 ← py_float p5;
                   mret tt) with
            | Some _ => Verified
            | None => ParseError
            end
        | _ => ColumnError (length parts)
        end
  end.

(** [count] and the lines reported with "ERROR:", latest first. *)
Definition verify_step (st : nat * list text) (line : text) : nat * list text :=
  match verify_line line with
  | Skipped => st
  | Verified => (S st.1, st.2)
  | ColumnError _ | ParseError => (st.1, strip line :: st.2)
  end.

Definition verify_count (content : text) : nat * list text :=
  fold_left verify_step (file_lines (universal_newlines content)) (0, []).

Definition verify_format (content : text) : bool :=
  0 <? (verify_count content).1.
End Reader.

(** The characters of [str(x)] for a float [x]: digits, signs, the point,
    the exponent mark, and the letters of inf and nan. *)
Definition float_char (c : ascii) : bool :=
  is_digit c || existsb (Ascii.eqb c) ["+"; "-"; "."; "e"; "i"; "n"; "f"; "a"]%char.

Definition float_chars (s : text) : Prop :=
  s <> [] /\ Forall (fun c => float_char c = true) s.

(** A line ends with its only newline. *)
Definition terminated (l : text) : bool :=
  match rev l with
  | c :: body => Ascii.eqb c LF && forallb (fun c => negb (Ascii.eqb c LF)) body
  | [] => false
  end.

(** A row of the table without its newline. *)
Definition row_body (repr : Q -> text) (r : reference_case Q) : text :=
  repr (rc_T r) ++ comma ++ repr (rc_S r) ++ comma
    ++ format_f 6 (rc_DIC_molkg r) ++ comma
    ++ format_f 6 (rc_TA_molkg r) ++ comma
    ++ format_f 3 (rc_pH_total r) ++ comma
    ++ format_e 3 (rc_pCO2_atm r).

(** *** A stand-in for [float]

    It reads the plain decimal literals, [sign] digits [. digits]
    [e [sign] digits], a part of what [float] accepts. *)

Definition is_sign (c : ascii) : bool := Ascii.eqb c "-" || Ascii.eqb c "+".

Definition unsigned (s : text) : text :=
  match s with
  | c :: s' => if is_sign c then s' else s
  | [] => []
  end.

Definition negative (s : text) : bool :=
  match s with
  | c :: _ => Ascii.eqb c "-"
  | [] => false
  end.

Definition is_number (s : text) : bool :=
  negb (length s =? 0) && forallb is_digit s.

Definition digits_value (s : text) : Z :=
  fold_left (fun acc c => (10 * acc + Z.of_nat (nat_of_ascii c - 48))%Z) s 0%Z.

Definition signed (s : text) (v : Q) : Q := if negative s then (- v)%Q else v.

Definition decimal_mantissa (s : text) : option Q :=
  match split_on "." (unsigned s) with
  | [ip] =>
      if is_number ip then Some (signed s (inject_Z (digits_value ip))) else None
  | [ip; fp] =>
      if is_number ip && forallb is_digit fp then
        Some (signed s (inject_Z (digits_value (ip ++ fp))
                        / inject_Z (10 ^ Z.of_nat (length fp))))%Q
      else None
  | _ => None
  end.

Definition decimal_exponent (s : text) : option Z :=
  if is_number (unsigned s) then
    Some (if negative s then (- digits_value (unsigned s))%Z
          else digits_value (unsigned s))
  else None.

Definition decimal_literal (s : text) : option Q :=
  match split_on "e" s with
  | [m] => decimal_mantissa m
  | [m; e] =>
      mv ← decimal_mantissa m; ev ← decimal_exponent e;
      Some (mv * inject_Z 10 ^ ev)%Q
  | _ => None
  end.

(** The fields of a batch whose own extraction fails, with the exception,
    in the order of the batch. *)
Definition failures
    (num2date : list Q -> string -> string -> result (list string))
    (data : gmap string variable) (run : model_run) (key : result_key)
    (items : list string) : list (string * pyexc) :=
  flat_map (fun v => match extract num2date data run key ∅ v with
                     | Ok _ => []
                     | Raise e => [(v, e)]
                     end) items.

(** [day] is [d] cut before its first space. *)
Definition cut_at_space (d day : string) : Prop :=
  (forall n, String.get n day <> Some " "%char) /\
  (d = day \/ exists rest, d = String.append day (String " " rest)).

(** A box dataset (no depth axis, no z and zi): three timesteps, a rank-3
    field N1_p and a rank-4 field temp. *)
Definition sample_box : gmap string variable :=
  <["time"%string :=
      {| var_values := mk_array [3] [0; 86400; 172800]%Q;
         var_units := Some "seconds since 2000-01-01 00:00:00"%string;
         var_calendar := Some "standard"%string |}]>
  (<["N1_p"%string := plain (mk_array [3; 1; 1] [1; 2; 3]%Q)]>
  (<["temp"%string := plain (mk_array [3; 1; 1; 1] [10; 11; 12]%Q)]> ∅)).

(** ** Serialisation (NumpyEncoder, json.dump) *)

#[warnings="-register-all"] Inductive json : Type :=
  | JNumber (x : Q)
  | JString (s : string)
  | JArray (xs : list json).

(** [NumpyEncoder.default(obj)] for an ndarray,
    [[float(v) for v in obj.tolist()]]: [tolist()] of a 0-d array is a number,
    which cannot be iterated; of a 1-d array it is the list of its values;
    of an array of higher rank it is a list of lists, and [float] of a list
    raises. *)
Definition NumpyEncoder_default (a : ndarray) : result (list Q) :=
  match shape a with
  | [] => Raise TypeError
  | [_] => Ok (elems a)
  | n :: _ :: _ => if n =? 0 then Ok [] else Raise TypeError
  end.

(** An element of [var_time_series]: [interp] returns a numpy float
    (a subclass of [float], written as a number) for a scalar query and an
    array otherwise. *)
Definition item_to_json (a : ndarray) : result json :=
  match shape a, elems a with
  | [], [x] => Ok (JNumber x)
  | _, _ => (fun l => JArray (map JNumber l)) <$> NumpyEncoder_default a
  end.

(** What [json.dump(..., cls=NumpyEncoder)] writes for a stored value. *)
Definition to_json (x : pyval) : result json :=
  match x with
  | VDates ds => Ok (JArray (map JString ds))
  | VSeries xs => JArray <$> mapM item_to_json xs
  | VArray a => (fun l => JArray (map JNumber l)) <$> NumpyEncoder_default a
  | VFloat q => Ok (JNumber q)
  end.

(** [json.dump(expected_results, f, cls=NumpyEncoder)]: the object written,
    or the exception of the first value that cannot be encoded. *)
Definition json_dump (d : gmap string pyval) : result (gmap string json) :=
  list_to_map <$>
    mapM (fun kv : string * pyval => j ← to_json kv.2; mret (kv.1, j)) (map_to_list d).

(** A box dataset with a single timestep. *)
Definition single_step_box : gmap string variable :=
  <["time"%string :=
      {| var_values := mk_array [1] [0]%Q;
         var_units := Some "seconds since 2000-01-01 00:00:00"%string;
         var_calendar := Some "standard"%string |}]>
  (<["N1_p"%string := plain (mk_array [1; 1; 1] [1]%Q)]> ∅).

(** * Properties *)

(** ** The kernel *)

(** *** Control flow, for every arithmetic *)

Lemma ctmi_eval_out_of_range {F} (N : PyNum F) (T Tmin Topt Tmax : F) :
  f_le T Tmin || f_ge T Tmax = true ->
  ctmi_eval T Tmin Topt Tmax = Ok f_zero.
Proof. intros Hout. unfold ctmi_eval. now rewrite Hout. Qed.

(** *** Exact arithmetic *)

Local Open Scope Q_scope.

Lemma Qlt_bool_iff (x y : Q) : Qlt_bool x y = true <-> (x < y)%Q.
Proof.
  unfold Qlt_bool. rewrite negb_true_iff. split.
  - intros Hb. apply Qnot_le_lt. intros Hle.
    apply Qle_bool_iff in Hle. congruence.
  - intros Hlt. destruct (Qle_bool y x) eqn:E; [|reflexivity].
    apply Qle_bool_iff in E. exfalso. apply (Qlt_not_le _ _ Hlt E).
Qed.

Lemma Qlt_bool_false (x y : Q) : Qlt_bool x y = false <-> (y <= x)%Q.
Proof.
  unfold Qlt_bool. rewrite negb_false_iff. apply Qle_bool_iff.
Qed.

Lemma Qle_bool_false (x y : Q) : Qle_bool x y = false <-> (y < x)%Q.
Proof.
  rewrite <- Qlt_bool_iff. unfold Qlt_bool.
  destruct (Qle_bool x y); simpl; split; congruence.
Qed.

Lemma Qdiv_py_nonzero (x y : Q) : ~ (y == 0)%Q -> Qdiv_py x y = Ok (x / y)%Q.
Proof.
  intros Hy. unfold Qdiv_py. destruct (Qeq_bool y 0) eqn:E; [|reflexivity].
  apply Qeq_bool_iff in E. contradiction.
Qed.

Lemma Qdiv_py_zero (x y : Q) : (y == 0)%Q -> Qdiv_py x y = Raise ZeroDivisionError.
Proof.
  intros Hy. unfold Qdiv_py. apply Qeq_bool_iff in Hy. now rewrite Hy.
Qed.

Lemma out_of_range_Q (T Tmin Tmax : Q) :
  f_le T Tmin || f_ge T Tmax = true <-> (T <= Tmin \/ Tmax <= T)%Q.
Proof.
  unfold f_ge. simpl. rewrite orb_true_iff, !Qle_bool_iff. reflexivity.
Qed.

Lemma in_range_Q (T Tmin Tmax : Q) :
  f_le T Tmin || f_ge T Tmax = false <-> (Tmin < T /\ T < Tmax)%Q.
Proof.
  unfold f_ge. simpl. rewrite orb_false_iff, !Qle_bool_false. reflexivity.
Qed.

Lemma ab2_nonzero (Tmin Topt Tmax : Q) :
  Tmin < Topt -> Topt < Tmax ->
  ~ ((Topt - Tmin) * (Topt - Tmax) * ((Topt - Tmin) * (Topt - Tmax)) == 0).
Proof.
  intros H1 H2 H0.
  assert (Ha : 0 < Topt - Tmin) by lra.
  assert (Hb : 0 < Tmax - Topt) by lra.
  assert (Hab : 0 < (Topt - Tmin) * (Tmax - Topt))
    by (apply Qmult_lt_0_compat; assumption).
  assert (Hsq : 0 < ((Topt - Tmin) * (Tmax - Topt)) * ((Topt - Tmin) * (Tmax - Topt)))
    by (apply Qmult_lt_0_compat; assumption).
  assert (E : ((Topt - Tmin) * (Tmax - Topt)) * ((Topt - Tmin) * (Tmax - Topt))
              == (Topt - Tmin) * (Topt - Tmax) * ((Topt - Tmin) * (Topt - Tmax))) by ring.
  rewrite E, H0 in Hsq. apply (Qlt_irrefl 0 Hsq).
Qed.

Lemma ctmi_et_Q (T Tmin Topt Tmax : Q) :
  Tmin < Topt -> Topt < Tmax ->
  ctmi_et T Tmin Topt Tmax = Ok (cubic T Tmin Topt Tmax).
Proof.
  intros H1 H2. unfold ctmi_et, ctmi_coefficients, cubic. simpl.
  rewrite !Qdiv_py_nonzero by (apply ab2_nonzero; assumption).
  reflexivity.
Qed.

Lemma ctmi_eval_Q (T Tmin Topt Tmax : Q) :
  Tmin < Topt -> Topt < Tmax ->
  ctmi_eval T Tmin Topt Tmax =
    Ok (if f_le T Tmin || f_ge T Tmax then 0
        else clamp01 (cubic T Tmin Topt Tmax)).
Proof.
  intros H1 H2. unfold ctmi_eval.
  destruct (f_le T Tmin || f_ge T Tmax); [reflexivity|].
  rewrite ctmi_et_Q by assumption. reflexivity.
Qed.

(** *** The clamp *)

Lemma clamp01_cases (x : Q) :
  (x <= 0 /\ clamp01 x = 0) \/ (0 < x /\ x < 1 /\ clamp01 x = x) \/
  (1 <= x /\ clamp01 x = 1).
Proof.
  unfold clamp01, py_max, py_min, f_gt. simpl.
  destruct (Qlt_bool x 1) eqn:E1.
  - apply Qlt_bool_iff in E1. destruct (Qlt_bool 0 x) eqn:E0.
    + apply Qlt_bool_iff in E0. right. left. auto.
    + apply Qlt_bool_false in E0. left. auto.
  - apply Qlt_bool_false in E1. right. right. split; [assumption|reflexivity].
Qed.

Lemma clamp01_bounds (x : Q) : 0 <= clamp01 x /\ clamp01 x <= 1.
Proof.
  destruct (clamp01_cases x) as [[? ->]|[(? & ? & ->)|[? ->]]]; lra.
Qed.



(** *** The cubic between the cardinal temperatures

    With [p = Topt - Tmin] and [n = Tmax - Topt], the cubic times [(p n)^2]
    is [(T - Tmin) (Tmax - T) (p n + (p - n) (T - Topt))], which is also
    [(p n)^2 - (T - Topt)^2 ((p - n)^2 + p n + (p - n) (T - Topt))]. *)



Section Shape.
Variables Tmin Topt Tmax : Q.
Hypothesis Hlo : Tmin < Topt.
Hypothesis Hhi : Topt < Tmax.

Let p := Topt - Tmin.
Let n := Tmax - Topt.


Lemma M2_pos : 0 < M2 Tmin Topt Tmax.
Proof using Hlo Hhi.
  unfold M2, p, n. assert (0 < (Topt - Tmin) * (Tmax - Topt)) by nra. nra.
Qed.

Lemma cubic_num T :
  cubic T Tmin Topt Tmax * M2 Tmin Topt Tmax == Np Tmin Topt Tmax T.
Proof using Hlo Hhi.
  unfold cubic, M2, Np, lin, p, n. field. split; intro H0; nra.
Qed.

Lemma Np_shape T :
  Np Tmin Topt Tmax T
    == M2 Tmin Topt Tmax - (T - Topt) * (T - Topt) * Kp Tmin Topt Tmax T.
Proof. unfold Np, lin, M2, Kp, p, n. ring. Qed.

Lemma Kp_pos T : Tmin < T -> T < Tmax -> 0 < Kp Tmin Topt Tmax T.
Proof using Hlo Hhi.
  intros H1 H2. unfold Kp, p, n.
  destruct (Qlt_le_dec (Topt - Tmin) (Tmax - Topt)); nra.
Qed.




Lemma cubic_le_1 T : Tmin < T -> T < Tmax -> cubic T Tmin Topt Tmax <= 1.
Proof using Hlo Hhi.
  intros H1 H2. pose proof M2_pos as HM. pose proof (Kp_pos T H1 H2) as HK.
  pose proof (cubic_num T) as E. rewrite Np_shape in E.
  assert (Hsq : 0 <= (T - Topt) * (T - Topt) * Kp Tmin Topt Tmax T).
  { apply Qmult_le_0_compat; [|lra]. set (u := T - Topt).
    destruct (Qlt_le_dec u 0); nra. }
  destruct (Qlt_le_dec 1 (cubic T Tmin Topt Tmax)) as [Hgt|]; [|assumption].
  exfalso. nra.
Qed.



End Shape.












(** Where the optimum coincides with a cardinal temperature the coefficient
    denominator is zero and [ctmi_coefficients] raises. *)
Lemma ctmi_coefficients_degenerate (Tmin Topt Tmax : Q) :
  Topt == Tmin \/ Topt == Tmax ->
  ctmi_coefficients Tmin Topt Tmax = Raise ZeroDivisionError.
Proof.
  intros Hdeg.
  assert (Hz : (Topt - Tmin) * (Topt - Tmax) * ((Topt - Tmin) * (Topt - Tmax)) == 0).
  { destruct Hdeg as [E|E].
    - assert (Ez : Topt - Tmin == 0) by lra. rewrite Ez. ring.
    - assert (Ez : Topt - Tmax == 0) by lra. rewrite Ez. ring. }
  unfold ctmi_coefficients. simpl.
  rewrite !(Qdiv_py_zero _ _ Hz). reflexivity.
Qed.

(** C10: the range test comes first.  For every arithmetic, and for every
    [Topt] (no ordering assumed), an out-of-range [T] gives 0.0; the same
    holds when every division raises, so no division was performed.  This
    covers the triples with [Topt = Tmin] or [Topt = Tmax], for which the
    coefficients themselves raise ZeroDivisionError. *)
Theorem ctmi_eval_range_test_first {F} (N : PyNum F) (T Tmin Topt Tmax : F) :
  f_le T Tmin || f_ge T Tmax = true ->
  @ctmi_eval F N T Tmin Topt Tmax = Ok f_zero /\
  @ctmi_eval F (no_division N) T Tmin Topt Tmax = Ok f_zero /\
  (forall Tmin' Topt' Tmax' : Q,
     Topt' == Tmin' \/ Topt' == Tmax' ->
     ctmi_coefficients Tmin' Topt' Tmax' = Raise ZeroDivisionError).
Proof.
  intros Hout. split; [|split].
  - apply ctmi_eval_out_of_range. exact Hout.
  - apply (ctmi_eval_out_of_range (no_division N)). exact Hout.
  - apply ctmi_coefficients_degenerate.
Qed.

(** At the degenerate triple (Tmin, Topt, Tmax) = (0, 0, 10), in binary64. *)
Lemma ctmi_eval_range_test_first_witness :
  (@ctmi_eval float float_num (-1) 0 0 10)%float = Ok 0%float /\
  (@ctmi_eval float (no_division float_num) (-1) 0 0 10)%float = Ok 0%float /\
  (forall Tmin' Topt' Tmax' : Q,
     Topt' == Tmin' \/ Topt' == Tmax' ->
     ctmi_coefficients Tmin' Topt' Tmax' = Raise ZeroDivisionError).
Proof. apply (ctmi_eval_range_test_first float_num); reflexivity. Defined.

(** The same triple raises inside the range, in both arithmetics. *)
Example degenerate_triple_raises :
  ctmi_eval 5 0 0 10 = Raise ZeroDivisionError /\
  (ctmi_eval 5 0 0 10)%float = Raise ZeroDivisionError.
Proof. split; reflexivity. Qed.

Close Scope Q_scope.

(** *** Binary64: the tests pass on the parameter tables *)

Lemma tests_pass_binary64 :
  forallb test_cardinal_points ALL_GROUPS = true /\
  forallb test_unimodal ALL_GROUPS = true.
Proof. split; vm_compute; reflexivity. Qed.

(** test_mm_at_ks_equals_half_vmax and test_mm_zero_substrate. *)
Lemma michaelis_menten_tests_binary64 :
  forallb (fun Ks : float =>
             ok_and (michaelis_menten Ks 1%float Ks)
                    (fun V => float_close 1e-12 V 0.5))
          [0.1; 0.5; 1; 5; 10]%float = true /\
  michaelis_menten 0%float 1%float 1%float = Ok 0%float.
Proof. split; vm_compute; reflexivity. Qed.

(** ** The bridge *)

(** C5, counterexample: in binary64 a pCO2 of 0.0004 atm (400 micro-atm)
    does not survive the round trip, although 1e6 * 1e-6 evaluates to 1. *)
Lemma unit_round_trip_counterexample :
  unit_round_trip 0.0004%float = 0.00039999999999999996%float /\
  unit_round_trip 0.0004%float <> 0.0004%float /\
  PrimFloat.mul 1e6 1e-6 = 1%float.
Proof.
  split; [reflexivity|split; [|reflexivity]].
  intros E.
  assert (Hne : PrimFloat.eqb (unit_round_trip 0.0004%float) 0.0004%float = false)
    by reflexivity.
  rewrite E in Hne. vm_compute in Hne. discriminate.
Qed.

(** C5, amended: the solver is called with TA and DIC multiplied by 1e6, the
    persisted pCO2 is the returned one multiplied by 1e-6, and in exact
    arithmetic the two factors are inverses. *)
Theorem bridge_unit_conversions
    (pyco2_sys : Q -> Q -> Q -> Q -> result (solver_output Q))
    (T S DIC TA : Q) (out : solver_output Q) :
  pyco2_sys (TA * (1000000 # 1))%Q (DIC * (1000000 # 1))%Q T S = Ok out ->
  reference_case_of pyco2_sys (T, S, DIC, TA) =
    Ok {| rc_T := T; rc_S := S; rc_DIC_molkg := DIC; rc_TA_molkg := TA;
          rc_pH_total := out_pH_total out;
          rc_pCO2_atm := (out_pCO2 out * (1 # 1000000))%Q |} /\
  (forall x : Q, (unit_round_trip x == x)%Q).
Proof.
  intros Hsolver. split.
  - unfold reference_case_of. simpl. rewrite Hsolver. reflexivity.
  - intros x. unfold unit_round_trip. simpl. field.
Qed.

Lemma bridge_unit_conversions_witness :
  reference_case_of echo_solver ((25 # 1), (35 # 1), (21 # 10000), (23 # 10000))%Q =
    Ok {| rc_T := (25 # 1)%Q; rc_S := (35 # 1)%Q; rc_DIC_molkg := (21 # 10000)%Q;
          rc_TA_molkg := (23 # 10000)%Q; rc_pH_total := (8 # 1)%Q;
          rc_pCO2_atm := ((23 # 10000) * (1000000 # 1) * (1 # 1000000))%Q |} /\
  (forall x : Q, (unit_round_trip x == x)%Q).
Proof.
  apply (bridge_unit_conversions echo_solver (25 # 1) (35 # 1) (21 # 10000) (23 # 10000)
           {| out_pH_total := (8 # 1)%Q;
              out_pCO2 := ((23 # 10000) * (1000000 # 1))%Q |}).
  reflexivity.
Defined.

(** ** The pipeline *)

(** *** The loop over the fields *)

Section BestEffort.
Variable num2date : list Q -> string -> string -> result (list string).
Variable data : gmap string variable.
Variable run : model_run.
Variable key : result_key.

Local Abbreviation extract_ := (extract num2date data run key).
Local Abbreviation step_ := (step num2date data run key).
Local Abbreviation outcome_ := (outcome num2date data run key).

Lemma extract_own_entry (r r' : gmap string pyval) (v : string) :
  r !! v = r' !! v -> extract_ r v = extract_ r' v.
Proof.
  intros E. unfold extract, stored. rewrite E. reflexivity.
Qed.

Lemma fold_step_lookup (items : list string) :
  NoDup items ->
  forall st : gmap string pyval * list (string * pyexc),
  (forall v, v ∈ items -> st.1 !! v = None) ->
  forall w,
    (fold_left step_ items st).1 !! w =
      if decide (w ∈ items) then outcome_ w else st.1 !! w.
Proof.
  induction 1 as [|v items Hv Hnd IH]; intros st Hfresh w; cbn [fold_left].
  - destruct (decide (w ∈ [])) as [Hw|_]; [|reflexivity].
    exfalso. revert Hw. apply not_elem_of_nil.
  - assert (Eown : extract_ st.1 v = extract_ ∅ v).
    { apply extract_own_entry. rewrite lookup_empty. apply Hfresh. left. }
    assert (Hfresh' : forall u, u ∈ items -> (step_ st v).1 !! u = None).
    { intros u Hu. unfold step. rewrite Eown.
      destruct (extract_ ∅ v); simpl.
      - rewrite lookup_insert_ne by (intros ->; tauto).
        apply Hfresh. right. exact Hu.
      - apply Hfresh. right. exact Hu. }
    rewrite (IH _ Hfresh').
    destruct (decide (w ∈ items)) as [Hw|Hw].
    + destruct (decide (w ∈ v :: items)) as [_|Hn]; [reflexivity|].
      exfalso. apply Hn. right. exact Hw.
    + unfold step. rewrite Eown. unfold outcome_.
      destruct (decide (w ∈ v :: items)) as [Hin|Hn].
      * apply elem_of_cons in Hin as [->|?]; [|tauto].
        destruct (extract_ ∅ v); simpl.
        -- apply lookup_insert_eq.
        -- apply Hfresh. left.
      * assert (w <> v) by (intros ->; apply Hn; left).
        destruct (extract_ ∅ v); simpl; [|reflexivity].
        apply lookup_insert_ne. congruence.
Qed.

Lemma extract_all_lookup (items : list string) (w : string) :
  NoDup items ->
  (extract_all num2date data run key items).1 !! w =
    if decide (w ∈ items) then outcome_ w else None.
Proof.
  intros Hnd. unfold extract_all.
  rewrite (fold_step_lookup items Hnd); [|intros; apply lookup_empty].
  destruct (decide (w ∈ items)); [reflexivity|apply lookup_empty].
Qed.

Lemma fold_step_log (items : list string) :
  forall (st : gmap string pyval * list (string * pyexc)) v e,
  NoDup items ->
  (forall u, u ∈ items -> st.1 !! u = None) ->
  v ∈ items -> extract_ ∅ v = Raise e ->
  (v, e) ∈ (fold_left step_ items st).2.
Proof.
  assert (Hkeep : forall items st x, x ∈ st.2 -> x ∈ (fold_left step_ items st).2).
  { induction items0 as [|u items0 IH]; intros st x Hx; [exact Hx|].
    cbn [fold_left]. apply IH. unfold step.
    destruct (extract_ st.1 u); simpl; [exact Hx|right; exact Hx]. }
  induction items as [|u items IH]; intros st v e Hnd Hfresh Hv He.
  - exfalso. revert Hv. apply not_elem_of_nil.
  - cbn [fold_left]. apply NoDup_cons in Hnd as [Hu Hnd].
    assert (Eown : extract_ st.1 u = extract_ ∅ u).
    { apply extract_own_entry. rewrite lookup_empty. apply Hfresh. left. }
    apply elem_of_cons in Hv as [->|Hv].
    + apply Hkeep. unfold step. rewrite Eown, He. left.
    + apply IH; [assumption| |assumption..].
      intros w Hw. unfold step. rewrite Eown.
      destruct (extract_ ∅ u); simpl.
      * rewrite lookup_insert_ne by (intros ->; tauto).
        apply Hfresh. right. exact Hw.
      * apply Hfresh. right. exact Hw.
Qed.

Lemma fold_step_size (items : list string) :
  NoDup items ->
  forall st : gmap string pyval * list (string * pyexc),
  (forall v, v ∈ items -> st.1 !! v = None) ->
  size (fold_left step_ items st).1 =
    (size st.1 + length (filter (fun v => is_Some (outcome_ v)) items))%nat.
Proof.
  induction 1 as [|v items Hv Hnd IH]; intros st Hfresh; cbn [fold_left].
  - simpl. lia.
  - assert (Eown : extract_ st.1 v = extract_ ∅ v).
    { apply extract_own_entry. rewrite lookup_empty. apply Hfresh. left. }
    rewrite IH.
    + rewrite filter_cons. unfold step. rewrite Eown.
      destruct (decide (is_Some (outcome_ v))) as [[x Hx]|Hn];
        unfold outcome_ in *; destruct (extract_ ∅ v) as [y|e]; simpl.
      * rewrite map_size_insert_None by (apply Hfresh; left). lia.
      * discriminate.
      * exfalso. apply Hn. eexists. reflexivity.
      * reflexivity.
    + intros u Hu. unfold step. rewrite Eown.
      destruct (extract_ ∅ v); simpl.
      * rewrite lookup_insert_ne by (intros ->; tauto).
        apply Hfresh. right. exact Hu.
      * apply Hfresh. right. exact Hu.
Qed.

Lemma filter_all (P : string -> Prop) `{!forall x, Decision (P x)} (l : list string) :
  (forall w, w ∈ l -> P w) -> filter P l = l.
Proof.
  induction l as [|u l IH]; intros Hall; [reflexivity|].
  rewrite filter_cons_True by (apply Hall; left).
  f_equal. apply IH. intros w Hw. apply Hall. right. exact Hw.
Qed.

Lemma length_filter_all_but_one (P : string -> Prop) `{!forall x, Decision (P x)}
    (l : list string) (v : string) :
  NoDup l -> v ∈ l -> ~ P v -> (forall w, w ∈ l -> w <> v -> P w) ->
  length (filter P l) = (length l - 1)%nat.
Proof.
  induction 1 as [|u l Hu Hnd IH]; intros Hv HPv Hothers.
  - exfalso. revert Hv. apply not_elem_of_nil.
  - destruct (decide (u = v)) as [->|Hne].
    + rewrite filter_cons_False by exact HPv.
      rewrite filter_all; [simpl; lia|].
      intros w Hw. apply Hothers; [right; exact Hw|]. intros ->. tauto.
    + apply elem_of_cons in Hv as [->|Hv]; [congruence|].
      rewrite filter_cons_True by (apply Hothers; [left|exact Hne]).
      simpl. rewrite IH; [| assumption | assumption |].
      * destruct l; [exfalso; revert Hv; apply not_elem_of_nil | simpl; lia].
      * intros w Hw Hwv. apply Hothers; [right; exact Hw|exact Hwv].
Qed.

(** C7: extraction is best-effort per field.  When the extraction of one
    field [v] of a batch of distinct fields fails, the loop goes on: the
    dictionary is the one a run without [v] produces, it has no entry for
    [v], every other field has the outcome of its own extraction, the
    failure is reported, and when the others succeed there are N - 1
    entries. *)
Theorem extraction_best_effort (items : list string) (v : string) (e : pyexc) :
  NoDup items -> v ∈ items -> extract_ ∅ v = Raise e ->
  let fin := extract_all num2date data run key items in
  let without := extract_all num2date data run key (filter (fun w => w <> v) items) in
  fin.1 = without.1 /\
  fin.1 !! v = None /\
  (forall w, w ∈ items -> w <> v -> fin.1 !! w = outcome_ w) /\
  (v, e) ∈ fin.2 /\
  ((forall w, w ∈ items -> w <> v -> is_Some (outcome_ w)) ->
   size fin.1 = (length items - 1)%nat).
Proof.
  intros Hnd Hv He fin without.
  assert (Hnone : outcome_ v = None) by (unfold outcome_; rewrite He; reflexivity).
  assert (Hlook : forall w, fin.1 !! w = if decide (w ∈ items) then outcome_ w else None)
    by (intros w; apply extract_all_lookup; exact Hnd).
  split; [|split; [|split; [|split]]].
  - apply map_eq. intros w. rewrite Hlook. unfold without.
    rewrite extract_all_lookup by (apply NoDup_filter; exact Hnd).
    destruct (decide (w ∈ items)) as [Hw|Hw];
      destruct (decide (w ∈ filter (fun w0 => w0 <> v) items)) as [Hf|Hf];
      try reflexivity.
    + destruct (decide (w = v)) as [->|Hne]; [exact Hnone|].
      exfalso. apply Hf. apply list_elem_of_filter. split; assumption.
    + apply list_elem_of_filter in Hf as [_ Hf]. contradiction.
  - rewrite Hlook. destruct (decide (v ∈ items)); [exact Hnone|reflexivity].
  - intros w Hw _. rewrite Hlook. destruct (decide (w ∈ items)); [reflexivity|contradiction].
  - unfold fin, extract_all. apply fold_step_log; try assumption.
    intros; apply lookup_empty.
  - intros Hothers. unfold fin, extract_all.
    rewrite fold_step_size; [|exact Hnd|intros; apply lookup_empty].
    cbn [fst]. rewrite map_size_empty. simpl.
    apply (length_filter_all_but_one _ items v); try assumption.
    rewrite Hnone. intros [? ?]. discriminate.
Qed.
End BestEffort.

(** ** numpy.interp on increasing sample points *)


Lemma interp_from_step (x x0 x1 y0 y1 : Q) (xp fp : list Q) :
  interp_from x (x0 :: x1 :: xp) (y0 :: y1 :: fp) =
    if Qlt_bool x x1 then
      if Qeq_bool x0 x then y0 else ((y1 - y0) / (x1 - x0) * (x - x0) + y0)%Q
    else interp_from x (x1 :: xp) (y1 :: fp).
Proof. reflexivity. Qed.

Lemma interp_from_above (x : Q) (xp fp : list Q) :
  xp <> [] -> length fp = length xp ->
  Forall (fun xi => (xi <= x)%Q) xp ->
  interp_from x xp fp = List.last fp 0%Q.
Proof.
  revert fp. induction xp as [|x0 xp IH]; intros fp Hne Hlen Hall; [congruence|].
  destruct fp as [|y0 fp]; [discriminate|].
  destruct xp as [|x1 xp].
  - destruct fp; [reflexivity|discriminate].
  - destruct fp as [|y1 fp]; [discriminate|].
    rewrite interp_from_step.
    assert (Hx1 : (x1 <= x)%Q).
    { inversion Hall as [|? ? _ Hall']. inversion Hall'. assumption. }
    apply Qlt_bool_false in Hx1. rewrite Hx1.
    rewrite IH.
    + reflexivity.
    + discriminate.
    + simpl in *. lia.
    + inversion Hall. assumption.
Qed.

Lemma increasing_le_last (xp : list Q) (d : Q) :
  increasing xp -> Forall (fun xi => (xi <= List.last xp d)%Q) xp.
Proof.
  induction xp as [|x0 xp IH]; intros Hinc; [constructor|].
  destruct xp as [|x1 xp].
  - constructor; [apply Qle_refl|constructor].
  - destruct Hinc as [H01 Hinc]. specialize (IH Hinc).
    change (List.last (x0 :: x1 :: xp) d) with (List.last (x1 :: xp) d).
    constructor; [|exact IH].
    inversion IH as [|? ? Hx1 _]. eapply Qle_trans; eassumption.
Qed.





(** ** The profile branch *)


Lemma size_of_squeeze (sh : list nat) :
  size_of (List.filter (fun n => negb (n =? 1)) sh) = size_of sh.
Proof.
  induction sh as [|n sh IH]; [reflexivity|].
  simpl. destruct (n =? 1) eqn:E; simpl.
  - apply Nat.eqb_eq in E. subst n. rewrite IH. lia.
  - rewrite IH. reflexivity.
Qed.


Lemma index0_last (a : ndarray) (n : nat) (sh : list nat) :
  shape a = n :: sh -> 0 < n ->
  index0 a (-1) =
    Ok {| shape := sh;
          elems := take (size_of sh) (drop ((n - 1) * size_of sh) (elems a)) |}.
Proof.
  intros Hsh Hn. unfold index0. rewrite Hsh.
  change (-1 <? 0)%Z with true. cbv iota.
  assert (E2 : (0 <=? -1 + Z.of_nat n)%Z && (-1 + Z.of_nat n <? Z.of_nat n)%Z = true).
  { apply andb_true_iff. split; [apply Z.leb_le|apply Z.ltb_lt]; lia. }
  rewrite E2.
  replace (Z.to_nat (-1 + Z.of_nat n)) with (n - 1) by lia. reflexivity.
Qed.


Lemma length_row_of (a : ndarray) (nt L i : nat) :
  length (elems a) = nt * L -> i < nt -> length (row_of a L i) = L.
Proof.
  intros Hlen Hi. unfold row_of. rewrite length_take, length_drop. nia.
Qed.

(** With [d] the last interface depth of timestep [i], the value appended
    is [interp(0 + d, z[i, :], var[i, :])]. *)
Lemma interpolated_at (zi z var : ndarray) (L1 L i : nat) (d : Q) :
  row_of zi L1 i !! (L1 - 1) = Some d ->
  interpolated zi z var L1 L i =
    {| shape := [];
       elems := [interp1 (0 + d) (row_of z L i) (row_of var L i)] |}.
Proof.
  intros Hd. unfold interpolated.
  rewrite (drop_S _ _ _ Hd). reflexivity.
Qed.

Section Profile.
Variable num2date : list Q -> string -> string -> result (list string).
Variable data : gmap string variable.



(** ** The rank-4 branch of a gotm state variable *)

(** The slice is looked up in the result dictionary, which has no entry
    for the field being extracted. *)
Lemma extract_rank4_state (r : gmap string pyval) (v : string) (var : variable) :
  v <> "dates"%string -> data !! v = Some var ->
  ndim (var_values var) = 4 -> r !! v = None ->
  extract num2date data gotm expected_state r v = Raise (KeyError v).
Proof.
  intros Hv Hvar Hnd Hr. unfold extract.
  destruct (decide (v = "dates"%string)) as [|_]; [contradiction|].
  destruct (decide (expected_state = expected /\ gotm = gotm)) as [[? _]|_];
    [discriminate|].
  unfold variables. rewrite Hvar. simpl. rewrite Hnd. simpl.
  unfold stored. rewrite Hr. reflexivity.
Qed.
End Profile.

(** The field lists of the script name each field once. *)
Lemma data_dict_NoDup (m : model_run) :
  Forall (fun ki : result_key * list string => NoDup ki.2) (data_dict m).
Proof.
  destruct m; repeat constructor; apply (bool_decide_unpack _); vm_compute; exact I.
Qed.

Lemma state_vars_NoDup : NoDup state_vars.
Proof. apply (bool_decide_unpack _). vm_compute. exact I. Qed.

Lemma dates_not_state_var : "dates"%string ∉ state_vars.
Proof. apply (bool_decide_unpack _). vm_compute. exact I. Qed.

(** For every dataset, no rank-4 state variable reaches expected_state. *)
Lemma rank4_state_vars_omitted
    (num2date : list Q -> string -> string -> result (list string))
    (data : gmap string variable) (v : string) (var : variable) :
  v ∈ state_vars -> data !! v = Some var -> ndim (var_values var) = 4 ->
  let fin := extract_all num2date data gotm expected_state state_vars in
  fin.1 !! v = None /\ (v, KeyError v) ∈ fin.2.
Proof.
  intros Hv Hvar Hnd.
  assert (Hne : v <> "dates"%string).
  { intros ->. apply dates_not_state_var. exact Hv. }
  pose proof (extract_rank4_state num2date data ∅ v var Hne Hvar Hnd (lookup_empty v)) as He.
  split.
  - rewrite (extract_all_lookup num2date data gotm expected_state state_vars v
               state_vars_NoDup).
    destruct (decide (v ∈ state_vars)); [|reflexivity].
    unfold outcome. rewrite He. reflexivity.
  - unfold extract_all. apply fold_step_log.
    + exact state_vars_NoDup.
    + intros u _. apply lookup_empty.
    + exact Hv.
    + exact He.
Qed.



(** The series of the sample: at the queries 5, -1 and 12. *)
Example sample_profile_series :
  extract sample_num2date sample_profile gotm expected ∅ "N1_p" =
    Ok (VSeries [mk_array [] [2%Q]; mk_array [] [1%Q]; mk_array [] [4%Q]]).
Proof. vm_compute. reflexivity. Qed.

(** C4, at the failing input: a gotm run over [sample_profile].  The final
    timestep of the rank-4 field N1_p is in the dataset, but expected_state
    gets no entry for it and the field is reported with KeyError; the rank-3
    sibling G2_o gets its final value. *)
Theorem rank4_state_field_dropped :
  let fin := extract_all sample_num2date sample_profile gotm expected_state state_vars in
  ndim (mk_array [3; 3; 1; 1] [1; 2; 3; 1; 2; 3; 1; 2; 4]%Q) = 4 /\
  index_row (mk_array [3; 3; 1; 1] [1; 2; 3; 1; 2; 3; 1; 2; 4]%Q) (-1) =
    Ok (mk_array [3; 1; 1] [1; 2; 4]%Q) /\
  extract sample_num2date sample_profile gotm expected_state ∅ "N1_p" =
    Raise (KeyError "N1_p") /\
  fin.1 !! "N1_p"%string = None /\
  In ("N1_p"%string, KeyError "N1_p") fin.2 /\
  fin.1 !! "G2_o"%string = Some (VFloat 9).
Proof.
  vm_compute. repeat split.
  repeat (first [left; reflexivity | right]).
Qed.

Lemma extraction_best_effort_witness :
  let fin := extract_all sample_num2date sample_profile gotm expected
               ["dates"; "N1_p"; "N5_s"]%string in
  let fin' := extract_all sample_num2date sample_profile gotm expected
               ["dates"; "N1_p"]%string in
  extract sample_num2date sample_profile gotm expected ∅ "N5_s" =
    Raise (KeyError "N5_s") /\
  fin.1 = fin'.1 /\
  fin.1 !! "N5_s"%string = None /\
  (forall w, w ∈ ["dates"; "N1_p"; "N5_s"]%string -> w <> "N5_s"%string ->
     fin.1 !! w = outcome sample_num2date sample_profile gotm expected w) /\
  ("N5_s"%string, KeyError "N5_s") ∈ fin.2 /\
  ((forall w, w ∈ ["dates"; "N1_p"; "N5_s"]%string -> w <> "N5_s"%string ->
      is_Some (outcome sample_num2date sample_profile gotm expected w)) ->
   size fin.1 = 2).
Proof.
  split; [vm_compute; reflexivity|].
  apply (extraction_best_effort sample_num2date sample_profile gotm expected
           ["dates"; "N1_p"; "N5_s"]%string "N5_s" (KeyError "N5_s")).
  - apply (bool_decide_unpack _). vm_compute. exact I.
  - apply (bool_decide_unpack _). vm_compute. exact I.
  - vm_compute. reflexivity.
Defined.

(** ** The reference-case table *)

Lemma digit_char_is_digit (v : Z) : is_digit (digit_char v) = true.
Proof.
  unfold is_digit, digit_char.
  assert (Hk : Z.to_nat (v mod 10) < 10).
  { pose proof (Z.mod_pos_bound v 10 ltac:(lia)). lia. }
  rewrite nat_ascii_embedding by lia.
  apply andb_true_iff. split; apply Nat.leb_le; lia.
Qed.

Lemma uint_chars_digits (u : uint) : all_digits (uint_chars u).
Proof. induction u; constructor; solve [reflexivity | assumption]. Qed.

Lemma uint_chars_nonnil (u : uint) : u <> Nil -> uint_chars u <> [].
Proof. destruct u; simpl; congruence. Qed.

Lemma digits_of_digits (v : Z) : all_digits (digits_of v).
Proof. apply uint_chars_digits. Qed.

Lemma digits_of_nonempty (v : Z) : digits_of v <> [].
Proof.
  unfold digits_of. apply uint_chars_nonnil.
  destruct (Z.to_N v) as [|p]; simpl; [discriminate|].
  apply Unsigned.to_uint_nonnil.
Qed.

Lemma digits_fixed_length (k : nat) (v : Z) : length (digits_fixed k v) = k.
Proof.
  revert v. induction k as [|k IH]; intros v; [reflexivity|].
  simpl. rewrite length_app, IH. simpl. lia.
Qed.

Lemma digits_fixed_digits (k : nat) (v : Z) : all_digits (digits_fixed k v).
Proof.
  revert v. induction k as [|k IH]; intros v; [constructor|].
  simpl. apply Forall_app. split; [apply IH|].
  constructor; [apply digit_char_is_digit|constructor].
Qed.

Lemma sign_of_cases (x : Q) : sign_of x = [] \/ sign_of x = ["-"%char].
Proof. unfold sign_of. destruct (Qlt_bool x 0); auto. Qed.

Lemma format_f_shape (k : nat) (x : Q) : k <> 0 -> fixed_shape k (format_f k x).
Proof.
  intros Hk. unfold format_f.
  destruct (k =? 0) eqn:E; [apply Nat.eqb_eq in E; contradiction|].
  eexists _, _, _. split; [reflexivity|].
  split; [apply sign_of_cases|].
  split; [apply digits_of_nonempty|].
  split; [apply digits_of_digits|].
  split; [apply digits_fixed_digits|apply digits_fixed_length].
Qed.

Lemma exponent_digits_shape (e : Z) :
  all_digits (exponent_digits e) /\ 2 <= length (exponent_digits e).
Proof.
  unfold exponent_digits. destruct (Z.abs e <? 10)%Z eqn:E.
  - split; [|simpl; lia].
    constructor; [reflexivity|]. constructor; [apply digit_char_is_digit|constructor].
  - split; [apply digits_of_digits|].
    apply Z.ltb_ge in E. unfold digits_of.
    destruct (Z.to_N (Z.abs e)) as [|p] eqn:Ep; [lia|].
    pose proof (Unsigned.of_to p) as Hof. simpl.
    destruct (Pos.to_uint p) as [|u|u|u|u|u|u|u|u|u|u];
      try discriminate;
      destruct u; simpl; try lia;
      exfalso; vm_compute in Hof; inversion Hof; subst p; lia.
Qed.

Lemma format_e_shape (k : nat) (x : Q) : k <> 0 -> scientific_shape k (format_e k x).
Proof.
  intros Hk. unfold format_e.
  destruct (k =? 0) eqn:E; [apply Nat.eqb_eq in E; contradiction|].
  match goal with |- context [let '(m, e) := ?p in _] => destruct p as [m e] end.
  eexists _, _, _, _, _. split; [reflexivity|].
  split; [apply sign_of_cases|].
  split; [apply digit_char_is_digit|].
  split; [apply digits_fixed_digits|].
  split; [apply digits_fixed_length|].
  split; [destruct (e <? 0)%Z; auto|].
  apply exponent_digits_shape.
Qed.

Lemma significant_digits_skip (c : ascii) (s : text) :
  Ascii.eqb c "e" = false -> is_digit c = false ->
  significant_digits (c :: s) = significant_digits s.
Proof. intros He Hd. simpl. now rewrite He, Hd. Qed.

Lemma is_digit_not_e (c : ascii) : is_digit c = true -> Ascii.eqb c "e" = false.
Proof.
  intros Hd. destruct (Ascii.eqb c "e") eqn:E; [|reflexivity].
  apply Ascii.eqb_eq in E. subst c. discriminate.
Qed.

Lemma significant_digits_count (ds : text) (rest : text) :
  all_digits ds ->
  significant_digits (ds ++ "e"%char :: rest) = length ds.
Proof.
  induction 1 as [|c ds Hc _ IH]; [reflexivity|].
  simpl. rewrite (is_digit_not_e c Hc), Hc, IH. reflexivity.
Qed.

Lemma scientific_significant_digits (k : nat) (s : text) :
  scientific_shape k s -> significant_digits s = S k.
Proof.
  intros (sign & d & fp & es & ed & -> & Hsign & Hd & Hfp & Hlen & _).
  assert (Hbody : significant_digits (d :: "."%char :: fp ++ "e"%char :: es :: ed) = S k).
  { simpl. rewrite (is_digit_not_e d Hd), Hd.
    rewrite significant_digits_count by exact Hfp. now rewrite Hlen. }
  destruct Hsign as [->| ->]; [exact Hbody|].
  simpl app. rewrite significant_digits_skip by reflexivity. exact Hbody.
Qed.

(** *** Columns *)

Lemma split_on_no_sep (sep : ascii) (s : text) :
  ~ In sep s -> split_on sep s = [s].
Proof.
  induction s as [|c s IH]; intros Hn; [reflexivity|].
  simpl. destruct (Ascii.eqb c sep) eqn:E.
  - apply Ascii.eqb_eq in E. subst c. exfalso. apply Hn. left. reflexivity.
  - rewrite IH; [reflexivity|]. intros Hin. apply Hn. right. exact Hin.
Qed.

Lemma split_on_app (sep : ascii) (s rest : text) :
  ~ In sep s -> split_on sep (s ++ sep :: rest) = s :: split_on sep rest.
Proof.
  induction s as [|c s IH]; intros Hn.
  - simpl. now rewrite Ascii.eqb_refl.
  - simpl. destruct (Ascii.eqb c sep) eqn:E.
    + apply Ascii.eqb_eq in E. subst c. exfalso. apply Hn. left. reflexivity.
    + rewrite IH; [reflexivity|]. intros Hin. apply Hn. right. exact Hin.
Qed.

Lemma all_digits_no_comma (s : text) : all_digits s -> no_comma s.
Proof.
  intros Hd Hin. unfold all_digits in Hd. rewrite List.Forall_forall in Hd.
  specialize (Hd _ Hin). discriminate.
Qed.

Lemma fixed_shape_no_comma (k : nat) (s : text) : fixed_shape k s -> no_comma s.
Proof.
  intros (sign & ip & fp & -> & Hsign & _ & Hip & Hfp & _) Hin.
  apply in_app_or in Hin as [Hin|Hin].
  - destruct Hsign as [->| ->]; simpl in Hin; [tauto|].
    destruct Hin as [Hin|[]]. discriminate.
  - apply in_app_or in Hin as [Hin|[Hin|Hin]].
    + exact (all_digits_no_comma _ Hip Hin).
    + discriminate.
    + exact (all_digits_no_comma _ Hfp Hin).
Qed.

Lemma scientific_shape_no_comma (k : nat) (s : text) :
  scientific_shape k s -> no_comma s.
Proof.
  intros (sign & d & fp & es & ed & -> & Hsign & Hd & Hfp & _ & Hes & Hed & _) Hin.
  apply in_app_or in Hin as [Hin|Hin].
  - destruct Hsign as [->| ->]; simpl in Hin; [tauto|].
    destruct Hin as [Hin|[]]. discriminate.
  - destruct Hin as [Hin|[Hin|Hin]].
    + subst d. discriminate.
    + discriminate.
    + apply in_app_or in Hin as [Hin|[Hin|[Hin|Hin]]].
      * exact (all_digits_no_comma _ Hfp Hin).
      * discriminate.
      * destruct Hes; subst es; discriminate.
      * exact (all_digits_no_comma _ Hed Hin).
Qed.

(** *** The table *)

(** C9, counterexample: a pCO2 of 0.0004123 atm is written as 4.123e-04,
    with four significant digits. *)
Lemma three_significant_digits_counterexample :
  ~ three_significant_digits (4123 # 10000000)%Q /\
  format_e 3 (4123 # 10000000)%Q = list_ascii_of_string "4.123e-04" /\
  csv_row (format_f 1) sample_case =
    list_ascii_of_string "25.0,35.0,0.002100,0.002300,8.046,4.123e-04"
      ++ ["010"%char].
Proof.
  split; [|split]; [|vm_compute; reflexivity..].
  unfold three_significant_digits. vm_compute. discriminate.
Qed.

(** C9, amended: every line written is a comment line starting with '#' or
    the row of a result: six columns T, S, DIC, TA, pH_total, pCO2 separated
    by commas, DIC and TA with 6 decimals, pH with 3 decimals, and pCO2 in
    scientific notation with 3 decimals in the mantissa, that is 4
    significant digits. *)
Theorem reference_table_format (repr : Q -> text)
    (results : list (reference_case Q)) (line : text) :
  (forall x, no_comma (repr x)) ->
  In line (write_reference_cases repr results) ->
  (exists rest, line = "#"%char :: rest) \/
  (exists r body,
     In r results /\ line = body ++ ["010"%char] /\
     split_on "," body =
       [ repr (rc_T r); repr (rc_S r);
         format_f 6 (rc_DIC_molkg r); format_f 6 (rc_TA_molkg r);
         format_f 3 (rc_pH_total r); format_e 3 (rc_pCO2_atm r) ] /\
     fixed_shape 6 (format_f 6 (rc_DIC_molkg r)) /\
     fixed_shape 6 (format_f 6 (rc_TA_molkg r)) /\
     fixed_shape 3 (format_f 3 (rc_pH_total r)) /\
     scientific_shape 3 (format_e 3 (rc_pCO2_atm r)) /\
     significant_digits (format_e 3 (rc_pCO2_atm r)) = 4).
Proof.
  intros Hrepr Hin. unfold write_reference_cases in Hin.
  apply in_app_or in Hin as [Hin|Hin].
  - left. simpl in Hin.
    repeat (destruct Hin as [<-|Hin]; [eexists; reflexivity|]). destruct Hin.
  - right. apply in_map_iff in Hin as (r & <- & Hr).
    pose proof (format_f_shape 6 (rc_DIC_molkg r) ltac:(discriminate)) as Hdic.
    pose proof (format_f_shape 6 (rc_TA_molkg r) ltac:(discriminate)) as Hta.
    pose proof (format_f_shape 3 (rc_pH_total r) ltac:(discriminate)) as Hph.
    pose proof (format_e_shape 3 (rc_pCO2_atm r) ltac:(discriminate)) as Hpco2.
    exists r.
    exists (repr (rc_T r) ++ comma ++ repr (rc_S r) ++ comma
              ++ format_f 6 (rc_DIC_molkg r) ++ comma
              ++ format_f 6 (rc_TA_molkg r) ++ comma
              ++ format_f 3 (rc_pH_total r) ++ comma
              ++ format_e 3 (rc_pCO2_atm r)).
    split; [exact Hr|]. split.
    { unfold csv_row. rewrite <- !app_assoc. reflexivity. }
    split.
    { unfold comma. simpl.
      rewrite !split_on_app by
        first [ apply Hrepr | eapply fixed_shape_no_comma; eassumption ].
      rewrite split_on_no_sep by (eapply scientific_shape_no_comma; eassumption).
      reflexivity. }
    repeat split; try assumption.
    apply (scientific_significant_digits 3). exact Hpco2.
Qed.

Lemma reference_table_format_witness :
  let line := list_ascii_of_string "25.0,35.0,0.002100,0.002300,8.046,4.123e-04"
                ++ ["010"%char] in
  (exists rest, line = "#"%char :: rest) \/
  (exists r body,
     In r [sample_case] /\ line = body ++ ["010"%char] /\
     split_on "," body =
       [ format_f 1 (rc_T r); format_f 1 (rc_S r);
         format_f 6 (rc_DIC_molkg r); format_f 6 (rc_TA_molkg r);
         format_f 3 (rc_pH_total r); format_e 3 (rc_pCO2_atm r) ] /\
     fixed_shape 6 (format_f 6 (rc_DIC_molkg r)) /\
     fixed_shape 6 (format_f 6 (rc_TA_molkg r)) /\
     fixed_shape 3 (format_f 3 (rc_pH_total r)) /\
     scientific_shape 3 (format_e 3 (rc_pCO2_atm r)) /\
     significant_digits (format_e 3 (rc_pCO2_atm r)) = 4).
Proof.
  apply (reference_table_format (format_f 1) [sample_case]).
  - intros x. apply (fixed_shape_no_comma 1). apply format_f_shape. discriminate.
  - vm_compute. do 5 right. left. reflexivity.
Defined.

(** * Further properties of the kernel *)

(** ** Exact arithmetic, for arbitrary parameters *)

Local Open Scope Q_scope.

Lemma ab2_zero_iff (Tmin Topt Tmax : Q) :
  (Topt - Tmin) * (Topt - Tmax) * ((Topt - Tmin) * (Topt - Tmax)) == 0
  <-> Topt == Tmin \/ Topt == Tmax.
Proof.
  split.
  - intros H0.
    destruct (Qeq_dec Topt Tmin) as [|Ha]; [left; assumption|].
    destruct (Qeq_dec Topt Tmax) as [|Hb]; [right; assumption|].
    exfalso.
    assert (Hab : ~ (Topt - Tmin) * (Topt - Tmax) == 0).
    { intros E. apply Qmult_integral in E. destruct E as [E|E]; [apply Ha|apply Hb]; lra. }
    apply Qmult_integral in H0. tauto.
  - intros [E|E].
    + assert (Ez : Topt - Tmin == 0) by lra. rewrite Ez. ring.
    + assert (Ez : Topt - Tmax == 0) by lra. rewrite Ez. ring.
Qed.

Lemma ctmi_et_defined (T Tmin Topt Tmax : Q) :
  ~ Topt == Tmin -> ~ Topt == Tmax ->
  ctmi_et T Tmin Topt Tmax = Ok (cubic T Tmin Topt Tmax).
Proof.
  intros Ha Hb. unfold ctmi_et, ctmi_coefficients, cubic. simpl.
  rewrite !Qdiv_py_nonzero; [reflexivity|..];
    intros E; apply ab2_zero_iff in E; tauto.
Qed.

(** X1: for every rational T, Tmin, Topt and Tmax, ordered or not,
    [ctmi_eval] either returns a value in [0, 1] or raises ZeroDivisionError,
    and it raises exactly when T lies strictly inside (Tmin, Tmax) and Topt
    coincides with Tmin or Tmax. *)
Theorem ctmi_eval_any_parameters (T Tmin Topt Tmax : Q) :
  (ctmi_eval T Tmin Topt Tmax = Raise ZeroDivisionError /\
   Tmin < T /\ T < Tmax /\ (Topt == Tmin \/ Topt == Tmax)) \/
  (exists v, ctmi_eval T Tmin Topt Tmax = Ok v /\ 0 <= v /\ v <= 1 /\
             ~ (Tmin < T /\ T < Tmax /\ (Topt == Tmin \/ Topt == Tmax))).
Proof.
  destruct (f_le T Tmin || f_ge T Tmax) eqn:E.
  - right. exists 0. split; [apply (ctmi_eval_out_of_range Q_num); exact E|].
    apply out_of_range_Q in E. split; [lra|split; [lra|]].
    intros (H1 & H2 & _). destruct E; lra.
  - pose proof E as E'. apply in_range_Q in E'. destruct E' as [H1 H2].
    destruct (Qeq_dec Topt Tmin) as [Ha|Ha]; [|destruct (Qeq_dec Topt Tmax) as [Hb|Hb]].
    + left. split; [|auto]. unfold ctmi_eval. rewrite E. unfold ctmi_et.
      rewrite ctmi_coefficients_degenerate by (left; exact Ha). reflexivity.
    + left. split; [|auto]. unfold ctmi_eval. rewrite E. unfold ctmi_et.
      rewrite ctmi_coefficients_degenerate by (right; exact Hb). reflexivity.
    + right. exists (clamp01 (cubic T Tmin Topt Tmax)).
      split.
      { unfold ctmi_eval. rewrite E, ctmi_et_defined by assumption. reflexivity. }
      pose proof (clamp01_bounds (cubic T Tmin Topt Tmax)) as [? ?].
      repeat split; try assumption. intros (_ & _ & [?|?]); contradiction.
Qed.



(** *** Changes of variable *)

Lemma clamp01_Qeq (x y : Q) : x == y -> clamp01 x == clamp01 y.
Proof.
  intros Exy.
  destruct (clamp01_cases x) as [[? ->]|[(? & ? & ->)|[? ->]]];
    destruct (clamp01_cases y) as [[? ->]|[(? & ? & ->)|[? ->]]]; lra.
Qed.

Lemma ctmi_value_cases (Tmin Topt Tmax T : Q) :
  ((T <= Tmin \/ Tmax <= T) /\ ctmi_value Tmin Topt Tmax T = 0) \/
  ((Tmin < T /\ T < Tmax) /\
   ctmi_value Tmin Topt Tmax T = clamp01 (cubic T Tmin Topt Tmax)).
Proof.
  unfold ctmi_value. destruct (f_le T Tmin || f_ge T Tmax) eqn:E.
  - left. split; [apply out_of_range_Q; exact E|reflexivity].
  - right. split; [apply in_range_Q; exact E|reflexivity].
Qed.

Lemma cubic_affine (k c T Tmin Topt Tmax : Q) :
  ~ k == 0 -> ~ Topt == Tmin -> ~ Topt == Tmax ->
  cubic (k * T + c) (k * Tmin + c) (k * Topt + c) (k * Tmax + c)
    == cubic T Tmin Topt Tmax.
Proof.
  intros Hk Ha Hb. unfold cubic. field.
  assert (Hx : forall x y, ~ x == y -> ~ k * x + c - (k * y + c) == 0).
  { intros x y Hxy E. assert (E' : k * (x - y) == 0) by lra.
    apply Qmult_integral in E'. destruct E' as [E'|E']; [contradiction|].
    apply Hxy. lra. }
  repeat split; try (apply Hx; assumption); intros E; first [apply Ha | apply Hb]; lra.
Qed.

(** X3: the response does not depend on the temperature unit: an affine
    change T -> k T + c with k > 0 (Celsius to Fahrenheit or Kelvin), applied
    to T and to the three cardinal temperatures, leaves the value unchanged. *)
Theorem ctmi_eval_unit_change (k c T Tmin Topt Tmax : Q) :
  0 < k -> Tmin < Topt -> Topt < Tmax ->
  exists v v',
    ctmi_eval (k * T + c) (k * Tmin + c) (k * Topt + c) (k * Tmax + c) = Ok v /\
    ctmi_eval T Tmin Topt Tmax = Ok v' /\ v == v'.
Proof.
  intros Hk Hlo Hhi.
  assert (Hlo' : k * Tmin + c < k * Topt + c) by nra.
  assert (Hhi' : k * Topt + c < k * Tmax + c) by nra.
  eexists _, _. split; [apply ctmi_eval_Q; assumption|].
  split; [apply ctmi_eval_Q; assumption|].
  fold (ctmi_value (k * Tmin + c) (k * Topt + c) (k * Tmax + c) (k * T + c)).
  fold (ctmi_value Tmin Topt Tmax T).
  destruct (ctmi_value_cases Tmin Topt Tmax T) as [[Hout ->]|[[H1 H2] ->]];
    destruct (ctmi_value_cases (k * Tmin + c) (k * Topt + c) (k * Tmax + c) (k * T + c))
      as [[Hout' ->]|[[H1' H2'] ->]].
  - reflexivity.
  - exfalso. destruct Hout; nra.
  - exfalso. destruct Hout'; nra.
  - apply clamp01_Qeq. apply cubic_affine; lra.
Qed.

Lemma ctmi_eval_unit_change_witness :
  exists v v',
    ctmi_eval ((9 # 5) * 20 + 32) ((9 # 5) * 2 + 32) ((9 # 5) * 15 + 32)
              ((9 # 5) * 30 + 32) = Ok v /\
    ctmi_eval 20 2 15 30 = Ok v' /\ v == v'.
Proof. apply (ctmi_eval_unit_change (9 # 5) 32 20 2 15 30); reflexivity. Defined.

(** X4: reflecting the temperature axis about any point, T -> c - T, with
    Tmin and Tmax exchanging their roles, leaves the value unchanged; the P2
    table of the tests, (5, 20, 33), is the P1 table (2, 15, 30) reflected
    with c = 35. *)
Theorem ctmi_eval_reflection (c T Tmin Topt Tmax : Q) :
  Tmin < Topt -> Topt < Tmax ->
  exists v v',
    ctmi_eval (c - T) (c - Tmax) (c - Topt) (c - Tmin) = Ok v /\
    ctmi_eval T Tmin Topt Tmax = Ok v' /\ v == v'.
Proof.
  intros Hlo Hhi.
  eexists _, _. split; [apply ctmi_eval_Q; lra|].
  split; [apply ctmi_eval_Q; assumption|].
  fold (ctmi_value (c - Tmax) (c - Topt) (c - Tmin) (c - T)).
  fold (ctmi_value Tmin Topt Tmax T).
  destruct (ctmi_value_cases Tmin Topt Tmax T) as [[Hout ->]|[[H1 H2] ->]];
    destruct (ctmi_value_cases (c - Tmax) (c - Topt) (c - Tmin) (c - T))
      as [[Hout' ->]|[[H1' H2'] ->]].
  - reflexivity.
  - exfalso. destruct Hout; lra.
  - exfalso. destruct Hout'; lra.
  - apply clamp01_Qeq. unfold cubic. field. repeat split; intros E; lra.
Qed.

Lemma ctmi_eval_reflection_witness :
  exists v v',
    ctmi_eval (35 - 5) (35 - 30) (35 - 15) (35 - 2) = Ok v /\
    ctmi_eval 5 2 15 30 = Ok v' /\ v == v'.
Proof. apply (ctmi_eval_reflection 35 5 2 15 30); reflexivity. Defined.

(** *** Where the response vanishes, and its slope at the optimum *)




Lemma ctmi_et_difference (h Tmin Topt Tmax : Q) :
  Tmin < Topt -> Topt < Tmax ->
  cubic (Topt + h) Tmin Topt Tmax - cubic (Topt - h) Tmin Topt Tmax
  == - (2 * h) * ((2 * Topt - Tmin - Tmax) * (h * h)
                  / (((Topt - Tmin) * (Tmax - Topt)) * ((Topt - Tmin) * (Tmax - Topt)))).
Proof.
  intros Hlo Hhi. unfold cubic. field. repeat split; intros E; lra.
Qed.

Lemma clamp01_lipschitz (x y : Q) : Qabs (clamp01 x - clamp01 y) <= Qabs (x - y).
Proof.
  apply Qabs_Qle_condition.
  pose proof (Qle_Qabs (x - y)) as H1.
  pose proof (Qle_Qabs (- (x - y))) as H2. rewrite Qabs_opp in H2.
  destruct (clamp01_cases x) as [[? ->]|[(? & ? & ->)|[? ->]]];
    destruct (clamp01_cases y) as [[? ->]|[(? & ? & ->)|[? ->]]]; split; lra.
Qed.

(** X6: the central difference of test_f_prime_at_topt_is_zero,
    (f(Topt + h) - f(Topt - h)) / (2 h), is bounded in absolute value by
    |2 Topt - Tmin - Tmax| h^2 / ((Topt - Tmin) (Tmax - Topt))^2 whenever
    Topt - h and Topt + h lie inside the range: the slope at the optimum
    vanishes quadratically in h. *)
Theorem ctmi_eval_central_difference (h Tmin Topt Tmax : Q) :
  Tmin < Topt -> Topt < Tmax -> 0 < h -> Tmin < Topt - h -> Topt + h < Tmax ->
  exists fp fm,
    ctmi_eval (Topt + h) Tmin Topt Tmax = Ok fp /\
    ctmi_eval (Topt - h) Tmin Topt Tmax = Ok fm /\
    Qabs ((fp - fm) / (2 * h))
    <= Qabs (2 * Topt - Tmin - Tmax) * (h * h)
       / (((Topt - Tmin) * (Tmax - Topt)) * ((Topt - Tmin) * (Tmax - Topt))).
Proof.
  intros Hlo Hhi Hh Hm Hp.
  exists (clamp01 (cubic (Topt + h) Tmin Topt Tmax)),
         (clamp01 (cubic (Topt - h) Tmin Topt Tmax)).
  assert (Ein : forall T, Tmin < T -> T < Tmax ->
            ctmi_eval T Tmin Topt Tmax = Ok (clamp01 (cubic T Tmin Topt Tmax))).
  { intros T H1 H2. rewrite ctmi_eval_Q by assumption.
    assert (E : f_le T Tmin || f_ge T Tmax = false) by (apply in_range_Q; auto).
    now rewrite E. }
  split; [apply Ein; lra|]. split; [apply Ein; lra|].
  pose proof (clamp01_lipschitz (cubic (Topt + h) Tmin Topt Tmax)
                                (cubic (Topt - h) Tmin Topt Tmax)) as HL.
  rewrite (ctmi_et_difference h Tmin Topt Tmax Hlo Hhi) in HL.
  pose proof (M2_pos Tmin Topt Tmax Hlo Hhi) as HM. unfold M2 in HM.
  set (M := (Topt - Tmin) * (Tmax - Topt) * ((Topt - Tmin) * (Tmax - Topt))) in *.
  set (c := 2 * Topt - Tmin - Tmax) in *.
  set (d := clamp01 (cubic (Topt + h) Tmin Topt Tmax)
            - clamp01 (cubic (Topt - h) Tmin Topt Tmax)) in *.
  assert (Eb : Qabs (- (2 * h) * (c * (h * h) / M)) == 2 * h * (Qabs c * (h * h) / M)).
  { assert (Hq : forall u, 0 <= u -> 0 <= u * (h * h) / M).
    { intros u Hu. apply Qle_shift_div_l; [exact HM|]. nra. }
    assert (En : - c * (h * h) / M == - (c * (h * h) / M)) by (field; lra).
    destruct (Qlt_le_dec c 0) as [Hc|Hc].
    - pose proof (Hq (- c) ltac:(lra)) as Hq'. rewrite En in Hq'.
      rewrite (Qabs_neg c) by lra. rewrite En.
      rewrite Qabs_pos; [ring|]. set (K := c * (h * h) / M) in *. nra.
    - pose proof (Hq c Hc) as Hq'.
      rewrite (Qabs_pos c) by lra.
      rewrite Qabs_neg; [ring|]. set (K := c * (h * h) / M) in *. nra. }
  rewrite Eb in HL.
  unfold Qdiv at 1. rewrite Qabs_Qmult.
  rewrite (Qabs_pos (/ (2 * h))) by (apply Qlt_le_weak, Qinv_lt_0_compat; lra).
  apply Qle_shift_div_r; [lra|].
  set (B := Qabs c * (h * h) / M) in *. lra.
Qed.

Lemma ctmi_eval_central_difference_witness :
  exists fp fm,
    ctmi_eval (15 + (1 # 1000000)) 2 15 30 = Ok fp /\
    ctmi_eval (15 - (1 # 1000000)) 2 15 30 = Ok fm /\
    Qabs ((fp - fm) / (2 * (1 # 1000000)))
    <= Qabs (2 * 15 - 2 - 30) * ((1 # 1000000) * (1 # 1000000))
       / (((15 - 2) * (30 - 15)) * ((15 - 2) * (30 - 15))).
Proof. apply (ctmi_eval_central_difference (1 # 1000000) 2 15 30); reflexivity. Defined.

(** X7: when Topt is the midpoint of the range the cubic degenerates to
    the parabola 4 (T - Tmin) (Tmax - T) / (Tmax - Tmin)^2. *)
Theorem ctmi_eval_midpoint_parabola (T Tmin Topt Tmax : Q) :
  Tmin < Tmax -> 2 * Topt == Tmin + Tmax -> Tmin < T -> T < Tmax ->
  exists v, ctmi_eval T Tmin Topt Tmax = Ok v /\
    v == 4 * (T - Tmin) * (Tmax - T) / ((Tmax - Tmin) * (Tmax - Tmin)).
Proof.
  intros Hw Hmid H1 H2.
  assert (Hlo : Tmin < Topt) by lra. assert (Hhi : Topt < Tmax) by lra.
  exists (clamp01 (cubic T Tmin Topt Tmax)). split.
  - rewrite ctmi_eval_Q by assumption.
    assert (E : f_le T Tmin || f_ge T Tmax = false) by (apply in_range_Q; auto).
    now rewrite E.
  - pose proof (M2_pos Tmin Topt Tmax Hlo Hhi) as HM.
    pose proof (cubic_num Tmin Topt Tmax Hlo Hhi T) as E.
    pose proof (cubic_le_1 Tmin Topt Tmax Hlo Hhi T H1 H2) as Hle.
    set (P := 4 * (T - Tmin) * (Tmax - T) / ((Tmax - Tmin) * (Tmax - Tmin))).
    assert (EP : P * M2 Tmin Topt Tmax == Np Tmin Topt Tmax T).
    { unfold P, M2, Np, lin.
      assert (Et : Topt == (Tmin + Tmax) * (1 # 2)) by lra.
      rewrite Et. field. lra. }
    assert (Ec : cubic T Tmin Topt Tmax == P).
    { apply (Qmult_inj_r _ _ (M2 Tmin Topt Tmax)); [lra|]. rewrite E, EP. reflexivity. }
    assert (HP : 0 < P).
    { unfold P. apply Qlt_shift_div_l; [nra|]. nra. }
    destruct (clamp01_cases (cubic T Tmin Topt Tmax)) as [[? ->]|[(? & ? & ->)|[? ->]]]; lra.
Qed.

Lemma ctmi_eval_midpoint_parabola_witness :
  exists v, ctmi_eval (F:=Q) 10 0 15 30 = Ok v /\
    v == 4 * (10 - 0) * (30 - 10) / ((30 - 0) * (30 - 0)).
Proof. apply (ctmi_eval_midpoint_parabola 10 0 15 30); reflexivity. Defined.

(** ** Michaelis-Menten *)

Lemma michaelis_menten_defined (S Vmax Ks : Q) :
  ~ Ks + S == 0 -> michaelis_menten S Vmax Ks = Ok (Vmax * S / (Ks + S)).
Proof. intros H0. unfold michaelis_menten. simpl. apply Qdiv_py_nonzero. exact H0. Qed.

(** X8: for Ks > 0 and Vmax >= 0 the uptake is defined on S >= 0,
    non-negative, non-decreasing in S and bounded by Vmax, strictly below it
    when Vmax > 0; the gap to Vmax is Vmax Ks / (Ks + S). *)
Theorem michaelis_menten_saturation (Vmax Ks S1 S2 : Q) :
  0 < Ks -> 0 <= Vmax -> 0 <= S1 -> S1 <= S2 ->
  exists V1 V2,
    michaelis_menten S1 Vmax Ks = Ok V1 /\
    michaelis_menten S2 Vmax Ks = Ok V2 /\
    0 <= V1 /\ V1 <= V2 /\ V2 <= Vmax /\
    (0 < Vmax -> V2 < Vmax) /\
    Vmax - V2 == Vmax * Ks / (Ks + S2).
Proof.
  intros HKs HV HS1 HS12.
  exists (Vmax * S1 / (Ks + S1)), (Vmax * S2 / (Ks + S2)).
  split; [apply michaelis_menten_defined; intros E; lra|].
  split; [apply michaelis_menten_defined; intros E; lra|].
  assert (Hd1 : 0 < Ks + S1) by lra. assert (Hd2 : 0 < Ks + S2) by lra.
  assert (Hdef : Vmax - Vmax * S2 / (Ks + S2) == Vmax * Ks / (Ks + S2))
    by (field; lra).
  assert (Hdiff : Vmax * S2 / (Ks + S2) - Vmax * S1 / (Ks + S1)
                  == Vmax * Ks * (S2 - S1) / ((Ks + S1) * (Ks + S2)))
    by (field; lra).
  assert (Hq0 : 0 <= Vmax * S1 / (Ks + S1)).
  { apply Qle_shift_div_l; [assumption|]. nra. }
  assert (Hq1 : 0 <= Vmax * Ks * (S2 - S1) / ((Ks + S1) * (Ks + S2))).
  { apply Qle_shift_div_l; [nra|].
    assert (0 <= Vmax * Ks) by nra. assert (0 <= S2 - S1) by lra. nra. }
  assert (Hq2 : 0 <= Vmax * Ks / (Ks + S2)).
  { apply Qle_shift_div_l; [assumption|]. nra. }
  split; [assumption|]. split; [lra|]. split; [lra|]. split; [|exact Hdef].
  intros HVpos.
  assert (0 < Vmax * Ks / (Ks + S2)).
  { apply Qlt_shift_div_l; [assumption|]. nra. }
  lra.
Qed.

Lemma michaelis_menten_saturation_witness :
  exists V1 V2,
    michaelis_menten 1 2 1 = Ok V1 /\
    michaelis_menten 1000 2 1 = Ok V2 /\
    0 <= V1 /\ V1 <= V2 /\ V2 <= 2 /\
    (0 < 2 -> V2 < 2) /\
    2 - V2 == 2 * 1 / (1 + 1000).
Proof. apply (michaelis_menten_saturation 2 1 1 1000); lra. Defined.



Close Scope Q_scope.

(** ** Binary64, for every float *)

Lemma float_ltb_leb (x y : float) :
  PrimFloat.ltb x y = true -> PrimFloat.leb x y = true.
Proof.
  rewrite ltb_spec, leb_spec. unfold SFltb, SFleb.
  destruct (SFcompare (Prim2SF x) (Prim2SF y)) as [[| |]|]; congruence.
Qed.

Lemma Prim2SF_nan (x : float) : PrimFloat.is_nan x = true -> Prim2SF x = S754_nan.
Proof. intros H. unfold Prim2SF. now rewrite H. Qed.

Lemma float_nan_sub_l (x y : float) :
  Prim2SF x = S754_nan -> Prim2SF (x - y)%float = S754_nan.
Proof. intros H. rewrite sub_spec, H. reflexivity. Qed.

Lemma float_nan_mul_l (x y : float) :
  Prim2SF x = S754_nan -> Prim2SF (x * y)%float = S754_nan.
Proof. intros H. rewrite mul_spec, H. reflexivity. Qed.

Lemma float_nan_ltb_l (x y : float) :
  Prim2SF x = S754_nan -> PrimFloat.ltb x y = false.
Proof. intros H. rewrite ltb_spec, H. reflexivity. Qed.

Lemma float_nan_leb_l (x y : float) :
  Prim2SF x = S754_nan -> PrimFloat.leb x y = false.
Proof. intros H. rewrite leb_spec, H. reflexivity. Qed.

Lemma float_nan_leb_r (x y : float) :
  Prim2SF y = S754_nan -> PrimFloat.leb x y = false.
Proof.
  intros H. rewrite leb_spec, H. unfold SFleb, SFcompare.
  destruct (Prim2SF x); reflexivity.
Qed.

(** X10: in binary64, whatever the arguments (infinities and NaN
    included), a value returned by [ctmi_eval] satisfies 0.0 <= v <= 1.0; in
    particular it is never NaN. *)
Theorem ctmi_eval_binary64_range (T Tmin Topt Tmax v : float) :
  ctmi_eval T Tmin Topt Tmax = Ok v ->
  PrimFloat.leb 0 v = true /\ PrimFloat.leb v 1 = true.
Proof.
  unfold ctmi_eval.
  destruct (f_le T Tmin || f_ge T Tmax).
  - intros E. inversion E; subst v. split; reflexivity.
  - destruct (ctmi_et T Tmin Topt Tmax) as [et|e]; simpl; [|discriminate].
    intros E. inversion E; subst v. clear E.
    unfold py_max, py_min, f_gt. simpl.
    destruct (PrimFloat.ltb et 1) eqn:E1.
    + destruct (PrimFloat.ltb 0 et) eqn:E0.
      * split; apply float_ltb_leb; assumption.
      * split; reflexivity.
    + split; reflexivity.
Qed.

Lemma ctmi_eval_binary64_range_witness :
  PrimFloat.leb 0 0.87573964497041423%float = true /\
  PrimFloat.leb 0.87573964497041423%float 1 = true.
Proof.
  apply (ctmi_eval_binary64_range 20 2 15 30 0.87573964497041423)%float.
  reflexivity.
Defined.

(** X11: a NaN temperature is not rejected: both range tests are false,
    the cubic is NaN, [min(1.0, nan)] keeps its first argument, and the
    function returns 1.0, the value at the optimum. *)
Theorem ctmi_eval_nan_temperature (T Tmin Topt Tmax : float) (ab : float * float) :
  PrimFloat.is_nan T = true ->
  ctmi_coefficients Tmin Topt Tmax = Ok ab ->
  ctmi_eval T Tmin Topt Tmax = Ok 1%float.
Proof.
  intros Hnan Hab. apply Prim2SF_nan in Hnan.
  unfold ctmi_eval, f_ge. simpl.
  rewrite (float_nan_leb_l T Tmin Hnan), (float_nan_leb_r Tmax T Hnan). simpl.
  unfold ctmi_et. rewrite Hab. simpl.
  assert (Het : Prim2SF ((T - Tmin) * (T - Tmax) * (ab.1 * T + ab.2))%float = S754_nan).
  { apply float_nan_mul_l, float_nan_mul_l, float_nan_sub_l. exact Hnan. }
  unfold py_max, py_min, f_gt. simpl.
  rewrite (float_nan_ltb_l _ 1%float Het). reflexivity.
Qed.

Lemma ctmi_eval_nan_temperature_witness :
  ctmi_eval PrimFloat.nan 2%float 15%float 30%float = Ok 1%float.
Proof.
  apply (ctmi_eval_nan_temperature PrimFloat.nan 2 15 30
           (5.2596975673898752e-05, -0.0059171597633136093))%float;
    reflexivity.
Defined.

(** Finite floats and positive floats, in terms of their decoding. *)
Lemma Prim2SF_finite (x : float) :
  PrimFloat.is_finite x = true ->
  (exists s, Prim2SF x = S754_zero s) \/ (exists s m e, Prim2SF x = S754_finite s m e).
Proof.
  unfold PrimFloat.is_finite. rewrite negb_true_iff, orb_false_iff.
  intros [Hn Hi]. unfold Prim2SF. rewrite Hn, Hi.
  destruct (PrimFloat.is_zero x); [left; eauto|].
  destruct (Z.frexp x) as [r ex].
  destruct (shr_fexp prec emax (Uint63.to_Z (normfr_mantissa r)) (ex - prec) loc_Exact)
    as [shr e'].
  destruct (shr_m shr); [left|right|left]; eauto.
Qed.

Lemma Prim2SF_positive (x : float) :
  PrimFloat.ltb 0 x = true ->
  Prim2SF x = S754_infinity false \/ (exists m e, Prim2SF x = S754_finite false m e).
Proof.
  rewrite ltb_spec. change (Prim2SF 0) with (S754_zero false).
  unfold SFltb, SFcompare.
  destruct (Prim2SF x) as [s| [|] | |[|] m e]; try discriminate; eauto.
Qed.

(** X12: in binary64, for a finite Vmax and any Ks > 0 (infinity
    included) the uptake at S = 0.0 is defined and compares equal to 0.0 (it
    is -0.0 for a negative Vmax). *)
Theorem michaelis_menten_binary64_zero_substrate (Vmax Ks : float) :
  PrimFloat.is_finite Vmax = true -> PrimFloat.ltb 0 Ks = true ->
  exists V, michaelis_menten 0%float Vmax Ks = Ok V /\ PrimFloat.eqb V 0 = true.
Proof.
  intros HV HK.
  assert (HKs : (Ks + 0)%float = Ks).
  { apply Prim2SF_inj. rewrite add_spec. change (Prim2SF 0) with (S754_zero false).
    destruct (Prim2SF_positive Ks HK) as [->|(m & e & ->)]; reflexivity. }
  assert (Hnz : PrimFloat.eqb Ks 0 = false).
  { rewrite FloatAxioms.eqb_spec. change (Prim2SF 0) with (S754_zero false).
    destruct (Prim2SF_positive Ks HK) as [->|(m & e & ->)]; reflexivity. }
  assert (Hnum : exists s, Prim2SF (Vmax * 0)%float = S754_zero s).
  { rewrite mul_spec. change (Prim2SF 0) with (S754_zero false).
    destruct (Prim2SF_finite Vmax HV) as [[s ->]|(s & m & e & ->)]; eexists; reflexivity. }
  exists (Vmax * 0 / Ks)%float. split.
  - unfold michaelis_menten. simpl. unfold float_div_py. rewrite HKs, Hnz. reflexivity.
  - destruct Hnum as [s Hs].
    rewrite FloatAxioms.eqb_spec, div_spec, Hs. change (Prim2SF 0) with (S754_zero false).
    destruct (Prim2SF_positive Ks HK) as [->|(m & e & ->)]; reflexivity.
Qed.

Lemma michaelis_menten_binary64_zero_substrate_witness :
  exists V, michaelis_menten 0%float (-3)%float 0.5%float = Ok V /\
            PrimFloat.eqb V 0 = true.
Proof.
  apply (michaelis_menten_binary64_zero_substrate (-3) 0.5)%float; reflexivity.
Defined.

(** ** The test suite in binary64 *)

(** X24: evaluated in binary64, every one of the 15 test functions of the
    module returns without raising, so [run_all_tests] counts 15 passed and
    0 failed and returns True. *)
Theorem test_suite_passes_binary64 :
  run_all_tests test_functions = (15, 0, true).
Proof. vm_compute. reflexivity. Qed.

(** * Further properties of the bridge *)

(** ** The bridge loop *)

Section BridgeLoop.
Context {F : Type} `{PyNum F}.
Variable pyco2_sys : F -> F -> F -> F -> result (solver_output F).

Lemma reference_case_of_cases (T S DIC TA : F) :
  match pyco2_sys (f_mul TA f_1e6) (f_mul DIC f_1e6) T S with
  | Ok out =>
      reference_case_of pyco2_sys (T, S, DIC, TA) =
        Ok {| rc_T := T; rc_S := S; rc_DIC_molkg := DIC; rc_TA_molkg := TA;
              rc_pH_total := out_pH_total out;
              rc_pCO2_atm := f_mul (out_pCO2 out) f_1em6 |}
  | Raise e => reference_case_of pyco2_sys (T, S, DIC, TA) = Raise e
  end.
Proof.
  unfold reference_case_of.
  destruct (pyco2_sys (f_mul TA f_1e6) (f_mul DIC f_1e6) T S); reflexivity.
Qed.

(** X13: the loop over the test cases is all-or-nothing.  When it returns,
    there is one row per case, in order, holding the case's own T, S, DIC and
    TA (in mol/kg, not the converted values), the solver's pH and its pCO2
    times 1e-6, and the solver was called with TA*1e6 and DIC*1e6; when it
    raises, the exception is the one of the first case the solver fails on,
    every earlier call having succeeded, and no list of results is produced
    (so nothing is written). *)
Theorem generate_reference_cases_all_or_nothing (cases : list (F * F * F * F)) :
  match generate_reference_cases pyco2_sys cases with
  | Ok results =>
      length results = length cases /\
      forall i T S DIC TA, cases !! i = Some (T, S, DIC, TA) ->
        exists out,
          pyco2_sys (f_mul TA f_1e6) (f_mul DIC f_1e6) T S = Ok out /\
          results !! i =
            Some {| rc_T := T; rc_S := S; rc_DIC_molkg := DIC; rc_TA_molkg := TA;
                    rc_pH_total := out_pH_total out;
                    rc_pCO2_atm := f_mul (out_pCO2 out) f_1em6 |}
  | Raise e =>
      exists i T S DIC TA,
        cases !! i = Some (T, S, DIC, TA) /\
        pyco2_sys (f_mul TA f_1e6) (f_mul DIC f_1e6) T S = Raise e /\
        forall j T' S' DIC' TA', j < i -> cases !! j = Some (T', S', DIC', TA') ->
          exists out, pyco2_sys (f_mul TA' f_1e6) (f_mul DIC' f_1e6) T' S' = Ok out
  end.
Proof.
  induction cases as [|[[[T S] DIC] TA] cases IH].
  - simpl. split; [reflexivity|]. intros i ? ? ? ? Hi. discriminate.
  - cbn [generate_reference_cases].
    pose proof (reference_case_of_cases T S DIC TA) as Hc.
    destruct (pyco2_sys (f_mul TA f_1e6) (f_mul DIC f_1e6) T S) as [out|e] eqn:Es.
    + rewrite Hc. cbn [mbind result_bind].
      destruct (generate_reference_cases pyco2_sys cases) as [rs|e].
      * cbn. destruct IH as [Hlen IH]. split; [now rewrite Hlen|].
        intros [|i] T' S' DIC' TA' Hi.
        -- injection Hi as <- <- <- <-. exists out. split; [exact Es|reflexivity].
        -- apply (IH i). exact Hi.
      * cbn. destruct IH as (i & T' & S' & DIC' & TA' & Hi & He & Hbefore).
        exists (Datatypes.S i), T', S', DIC', TA'. split; [exact Hi|]. split; [exact He|].
        intros [|j] T2 S2 DIC2 TA2 Hj Hl.
        -- injection Hl as <- <- <- <-. exists out. exact Es.
        -- apply (Hbefore j T2 S2 DIC2 TA2); [lia|exact Hl].
    + rewrite Hc. cbn.
      exists 0, T, S, DIC, TA. split; [reflexivity|]. split; [exact Es|].
      intros j ? ? ? ? Hj. lia.
Qed.
End BridgeLoop.

(** ** Writing the table and reading it back *)

Lemma universal_newlines_id (s : text) :
  ~ In CR s -> universal_newlines s = s.
Proof.
  induction s as [|c s IH]; intros Hn; [reflexivity|].
  cbn [universal_newlines]. destruct (Ascii.eqb c CR) eqn:E.
  - apply Ascii.eqb_eq in E. subst c. exfalso. apply Hn. left. reflexivity.
  - rewrite IH; [reflexivity|]. intros Hin. apply Hn. right. exact Hin.
Qed.

Lemma file_lines_line (body rest : text) :
  forallb (fun c => negb (Ascii.eqb c LF)) body = true ->
  file_lines (body ++ LF :: rest) = (body ++ [LF]) :: file_lines rest.
Proof.
  induction body as [|c body IH]; intros Hb.
  - reflexivity.
  - simpl in Hb. apply andb_true_iff in Hb as [Hc Hb].
    apply negb_true_iff in Hc.
    cbn [app file_lines]. rewrite Hc, (IH Hb). reflexivity.
Qed.

Lemma terminated_inv (l : text) :
  terminated l = true ->
  exists body, l = body ++ [LF] /\
               forallb (fun c => negb (Ascii.eqb c LF)) body = true.
Proof.
  unfold terminated. destruct (rev l) as [|c b] eqn:E; [discriminate|].
  intros Hb. apply andb_true_iff in Hb as [Hc Hb]. apply Ascii.eqb_eq in Hc. subst c.
  exists (rev b). split.
  - rewrite <- (rev_involutive l), E. reflexivity.
  - rewrite forallb_forall in *. intros x Hx. apply Hb. now apply in_rev.
Qed.

Lemma file_lines_concat (lines : list text) :
  Forall (fun l => terminated l = true) lines ->
  file_lines (concat lines) = lines.
Proof.
  induction 1 as [|l lines Hl _ IH]; [reflexivity|].
  destruct (terminated_inv l Hl) as (body & -> & Hb).
  cbn [concat]. rewrite <- app_assoc. cbn [app].
  rewrite (file_lines_line body _ Hb), IH. reflexivity.
Qed.

Lemma lstrip_clean (s : text) :
  match s with c :: _ => is_space c = false | [] => True end -> lstrip s = s.
Proof. destruct s as [|c s]; [reflexivity|]. simpl. now intros ->. Qed.

Lemma strip_line (body : text) :
  body <> [] -> Forall (fun c => is_space c = false) body ->
  strip (body ++ [LF]) = body.
Proof.
  intros Hne Hb. unfold strip, rstrip.
  rewrite (lstrip_clean (body ++ [LF])).
  2:{ destruct body as [|c b]; [contradiction|]. now inversion Hb. }
  rewrite rev_app_distr. cbn [rev app lstrip].
  change (is_space LF) with true. cbn match.
  rewrite lstrip_clean, rev_involutive; [reflexivity|].
  destruct (rev body) as [|c b] eqn:E; [exact I|].
  rewrite List.Forall_forall in Hb. apply Hb. apply in_rev. rewrite E. left. reflexivity.
Qed.

Lemma float_char_clean (c : ascii) :
  float_char c = true ->
  is_space c = false /\ c <> ","%char /\ c <> "#"%char /\ c <> LF /\ c <> CR.
Proof.
  destruct c as [[|] [|] [|] [|] [|] [|] [|] [|]]; intros Hc;
    try discriminate Hc; repeat split; try reflexivity; discriminate.
Qed.

Lemma all_digits_float_chars (s : text) :
  all_digits s -> Forall (fun c => float_char c = true) s.
Proof.
  apply List.Forall_impl. intros c Hc. unfold float_char. now rewrite Hc.
Qed.

Lemma fixed_shape_float_chars (k : nat) (s : text) :
  fixed_shape k s -> float_chars s.
Proof.
  intros (sign & ip & fp & -> & Hsign & Hne & Hip & Hfp & _). split.
  - destruct sign; [|discriminate]. destruct ip; [contradiction|discriminate].
  - apply Forall_app. split.
    + destruct Hsign as [->| ->]; repeat constructor.
    + apply Forall_app. split; [apply all_digits_float_chars; exact Hip|].
      constructor; [reflexivity|apply all_digits_float_chars; exact Hfp].
Qed.

Lemma scientific_shape_float_chars (k : nat) (s : text) :
  scientific_shape k s -> float_chars s.
Proof.
  intros (sign & d & fp & es & ed & -> & Hsign & Hd & Hfp & _ & Hes & Hed & _). split.
  - destruct sign; discriminate.
  - apply Forall_app. split.
    + destruct Hsign as [->| ->]; repeat constructor.
    + constructor; [unfold float_char; now rewrite Hd|].
      constructor; [reflexivity|].
      apply Forall_app. split; [apply all_digits_float_chars; exact Hfp|].
      constructor; [reflexivity|].
      constructor; [destruct Hes; subst es; reflexivity|].
      apply all_digits_float_chars; exact Hed.
Qed.

Section RoundTrip.
Variable repr : Q -> text.
Variable py_float : text -> option Q.

Lemma csv_row_body (r : reference_case Q) :
  csv_row repr r = row_body repr r ++ [LF].
Proof. unfold csv_row, row_body. rewrite <- !app_assoc. reflexivity. Qed.

Lemma body_chars (r : reference_case Q) :
  (forall x, float_chars (repr x)) ->
  row_body repr r <> [] /\
  Forall (fun c => float_char c = true \/ c = ","%char) (row_body repr r) /\
  match row_body repr r with c :: _ => float_char c = true | [] => True end.
Proof.
  clear py_float. intros repr_chars.
  pose proof (fixed_shape_float_chars 6 _ (format_f_shape 6 (rc_DIC_molkg r) ltac:(discriminate))) as [_ Hdic].
  pose proof (fixed_shape_float_chars 6 _ (format_f_shape 6 (rc_TA_molkg r) ltac:(discriminate))) as [_ Hta].
  pose proof (fixed_shape_float_chars 3 _ (format_f_shape 3 (rc_pH_total r) ltac:(discriminate))) as [_ Hph].
  pose proof (scientific_shape_float_chars 3 _ (format_e_shape 3 (rc_pCO2_atm r) ltac:(discriminate))) as [_ Hp].
  pose proof (repr_chars (rc_T r)) as [HTne HT].
  pose proof (repr_chars (rc_S r)) as [_ HS].
  assert (Hl : forall s, Forall (fun c => float_char c = true) s ->
                 Forall (fun c => float_char c = true \/ c = ","%char) s).
  { intros s. apply List.Forall_impl. tauto. }
  unfold row_body.
  split; [|split].
  - destruct (repr (rc_T r)); [contradiction|discriminate].
  - unfold comma.
    repeat (apply Forall_app; split;
            [first [now apply Hl | constructor; [right; reflexivity|constructor]]|]).
    now apply Hl.
  - destruct (repr (rc_T r)) as [|c t]; [contradiction|]. now inversion HT.
Qed.

Lemma verify_line_row (r : reference_case Q) :
  (forall x, float_chars (repr x)) ->
  (forall x, is_Some (py_float (repr x))) ->
  (forall k s, fixed_shape k s -> is_Some (py_float s)) ->
  (forall k s, scientific_shape k s -> is_Some (py_float s)) ->
  terminated (csv_row repr r) = true /\
  ~ In CR (csv_row repr r) /\
  verify_line py_float (csv_row repr r) = Verified.
Proof.
  intros repr_chars float_repr float_fixed float_scientific.
  destruct (body_chars r repr_chars) as (Hne & Hchars & Hfirst).
  pose proof (format_f_shape 6 (rc_DIC_molkg r) ltac:(discriminate)) as Hdic.
  pose proof (format_f_shape 6 (rc_TA_molkg r) ltac:(discriminate)) as Hta.
  pose proof (format_f_shape 3 (rc_pH_total r) ltac:(discriminate)) as Hph.
  pose proof (format_e_shape 3 (rc_pCO2_atm r) ltac:(discriminate)) as Hpco2.
  rewrite csv_row_body.
  assert (Hclean : Forall (fun c => is_space c = false /\ c <> LF /\ c <> CR)
                          (row_body repr r)).
  { revert Hchars. apply List.Forall_impl. intros c [Hc| ->].
    - apply float_char_clean in Hc. tauto.
    - repeat split; discriminate. }
  split; [|split].
  - unfold terminated. rewrite rev_app_distr. cbn [rev app].
    rewrite Ascii.eqb_refl. cbn [andb]. apply forallb_forall. intros c Hc.
    apply in_rev in Hc. rewrite List.Forall_forall in Hclean.
    destruct (Hclean c Hc) as (_ & Hlf & _).
    apply negb_true_iff. now apply Ascii.eqb_neq.
  - intros Hin. apply in_app_or in Hin as [Hin|[Hin|[]]]; [|discriminate].
    rewrite List.Forall_forall in Hclean. destruct (Hclean _ Hin) as (_ & _ & Hcr).
    now apply Hcr.
  - unfold verify_line. rewrite strip_line; [|exact Hne|].
    2:{ revert Hclean. apply List.Forall_impl. tauto. }
    destruct (row_body repr r) as [|c b] eqn:Eb; [contradiction|].
    assert (Hhash : Ascii.eqb c "#" = false).
    { apply Ascii.eqb_neq. apply float_char_clean in Hfirst. tauto. }
    rewrite Hhash. rewrite <- Eb. unfold row_body, comma. cbn [app].
    assert (Hnc : forall x, ~ In ","%char (repr x)).
    { intros x Hin. destruct (repr_chars x) as [_ Hx].
      rewrite List.Forall_forall in Hx. apply Hx in Hin. discriminate. }
    rewrite !split_on_app by
      first [ apply Hnc | eapply fixed_shape_no_comma; eassumption ].
    rewrite split_on_no_sep by (eapply scientific_shape_no_comma; eassumption).
    destruct (float_repr (rc_T r)) as [? ->], (float_repr (rc_S r)) as [? ->].
    destruct (float_fixed _ _ Hdic) as [? ->], (float_fixed _ _ Hta) as [? ->].
    destruct (float_fixed _ _ Hph) as [? ->], (float_scientific _ _ Hpco2) as [? ->].
    reflexivity.
Qed.

Lemma fold_verify_rows (rows : list text) (st : nat * list text) :
  Forall (fun l => verify_line py_float l = Verified) rows ->
  fold_left (verify_step py_float) rows st = ((st.1 + length rows)%nat, st.2).
Proof.
  revert st. induction rows as [|l rows IH]; intros st Hall.
  - simpl. destruct st. simpl. f_equal. lia.
  - inversion Hall as [|? ? Hl Hrest]; subst. cbn [fold_left].
    rewrite (IH _ Hrest). unfold verify_step. rewrite Hl. simpl. f_equal. lia.
Qed.

Lemma fold_verify_skipped (ls : list text) (st : nat * list text) :
  Forall (fun l => verify_line py_float l = Skipped) ls ->
  fold_left (verify_step py_float) ls st = st.
Proof.
  revert st. induction ls as [|l ls IH]; intros st Hall; [reflexivity|].
  inversion Hall as [|? ? Hl Hrest]; subst. cbn [fold_left].
  unfold verify_step at 2. rewrite Hl. apply IH. exact Hrest.
Qed.

Lemma csv_header_lines :
  Forall (fun l => terminated l = true) csv_header /\
  ~ In CR (concat csv_header) /\
  Forall (fun l => verify_line py_float l = Skipped) csv_header.
Proof.
  split; [|split].
  - repeat constructor.
  - intros Hin. vm_compute in Hin. repeat (destruct Hin as [Hin|Hin]; [discriminate|]).
    exact Hin.
  - repeat constructor.
Qed.

(** X14: the file written for a list of results reads back as the lines
    written, and [verify_format] run on it counts exactly one test case per
    result and reports no error: the five comment lines are skipped, every row
    splits into six columns and each column is accepted by [float].  It
    returns True exactly when there is at least one result.  The hypotheses
    state what [str] and [float] do on floats: [str(x)] is a non-empty text
    of float characters that [float] reads back, and [float] accepts the
    fixed-point and scientific notations. *)
Theorem written_table_verifies (results : list (reference_case Q)) :
  (forall x, float_chars (repr x)) ->
  (forall x, is_Some (py_float (repr x))) ->
  (forall k s, fixed_shape k s -> is_Some (py_float s)) ->
  (forall k s, scientific_shape k s -> is_Some (py_float s)) ->
  let content := file_content (write_reference_cases repr results) in
  file_lines (universal_newlines content) = write_reference_cases repr results /\
  verify_count py_float content = (length results, []) /\
  verify_format py_float content = negb (length results =? 0).
Proof.
  intros repr_chars float_repr float_fixed float_scientific content.
  destruct csv_header_lines as (Hterm & Hcr & Hskip).
  assert (Hrows : forall r, terminated (csv_row repr r) = true /\
                            ~ In CR (csv_row repr r) /\
                            verify_line py_float (csv_row repr r) = Verified).
  { intros r. now apply verify_line_row. }
  assert (Hlines : file_lines (universal_newlines content)
                   = write_reference_cases repr results).
  { unfold content, file_content. rewrite universal_newlines_id.
    - apply file_lines_concat. unfold write_reference_cases.
      apply Forall_app. split; [exact Hterm|].
      apply List.Forall_forall. intros l Hl. apply in_map_iff in Hl as (r & <- & _).
      apply Hrows.
    - unfold write_reference_cases. rewrite concat_app. intros Hin.
      apply in_app_or in Hin as [Hin|Hin]; [now apply Hcr|].
      apply in_concat in Hin as (l & Hl & Hin).
      apply in_map_iff in Hl as (r & <- & _). now apply (Hrows r). }
  assert (Hcount : verify_count py_float content = (length results, [])).
  { unfold verify_count. rewrite Hlines. unfold write_reference_cases.
    rewrite fold_left_app, (fold_verify_skipped _ _ Hskip), fold_verify_rows.
    - now rewrite length_map.
    - apply List.Forall_forall. intros l Hl. apply in_map_iff in Hl as (r & <- & _).
      apply Hrows. }
  split; [exact Hlines|]. split; [exact Hcount|].
  unfold verify_format. rewrite Hcount. cbn [fst]. now destruct (length results).
Qed.
End RoundTrip.

Lemma all_digits_forallb (s : text) : all_digits s -> forallb is_digit s = true.
Proof. intros H. apply forallb_forall. now apply List.Forall_forall. Qed.

Lemma all_digits_not_in (c : ascii) (s : text) :
  is_digit c = false -> all_digits s -> ~ In c s.
Proof.
  intros Hc Hs Hin. unfold all_digits in Hs. rewrite List.Forall_forall in Hs.
  specialize (Hs _ Hin). congruence.
Qed.

Lemma is_number_digits (s : text) : s <> [] -> all_digits s -> is_number s = true.
Proof.
  intros Hne Hs. unfold is_number. rewrite (all_digits_forallb s Hs).
  destruct s; [contradiction|reflexivity].
Qed.

Lemma unsigned_signed (sign rest : text) (c : ascii) :
  (sign = [] \/ sign = ["-"%char]) -> is_digit c = true ->
  unsigned (sign ++ c :: rest) = c :: rest.
Proof.
  intros [->| ->] Hc; [|reflexivity]. cbn [app unsigned].
  assert (E : is_sign c = false).
  { destruct c as [[|] [|] [|] [|] [|] [|] [|] [|]]; try discriminate Hc; reflexivity. }
  now rewrite E.
Qed.

Lemma decimal_mantissa_fixed (sign ip fp : text) :
  (sign = [] \/ sign = ["-"%char]) -> ip <> [] -> all_digits ip -> all_digits fp ->
  is_Some (decimal_mantissa (sign ++ ip ++ "."%char :: fp)).
Proof.
  intros Hsign Hne Hip Hfp. unfold decimal_mantissa.
  destruct ip as [|c ip']; [contradiction|].
  assert (Hc : is_digit c = true) by (now inversion Hip).
  cbn [app]. rewrite (unsigned_signed sign _ c Hsign Hc).
  change (c :: ip' ++ "."%char :: fp) with ((c :: ip') ++ "."%char :: fp).
  rewrite split_on_app by (apply all_digits_not_in; [reflexivity|exact Hip]).
  rewrite split_on_no_sep by (apply all_digits_not_in; [reflexivity|exact Hfp]).
  rewrite is_number_digits, all_digits_forallb by (assumption || discriminate).
  cbn [andb]. eexists. reflexivity.
Qed.

Lemma decimal_literal_fixed (k : nat) (s : text) :
  fixed_shape k s -> is_Some (decimal_literal s).
Proof.
  intros (sign & ip & fp & -> & Hsign & Hne & Hip & Hfp & _).
  unfold decimal_literal. rewrite split_on_no_sep.
  - now apply decimal_mantissa_fixed.
  - intros Hin. apply in_app_or in Hin as [Hin|Hin].
    + destruct Hsign as [->| ->]; [destruct Hin|].
      destruct Hin as [Hin|[]]. discriminate.
    + apply in_app_or in Hin as [Hin|[Hin|Hin]].
      * revert Hin. apply all_digits_not_in; [reflexivity|exact Hip].
      * discriminate.
      * revert Hin. apply all_digits_not_in; [reflexivity|exact Hfp].
Qed.

Lemma decimal_literal_scientific (k : nat) (s : text) :
  scientific_shape k s -> is_Some (decimal_literal s).
Proof.
  intros (sign & d & fp & es & ed & -> & Hsign & Hd & Hfp & _ & Hes & Hed & Hlen).
  unfold decimal_literal.
  change (sign ++ d :: "."%char :: fp ++ "e"%char :: es :: ed)
    with (sign ++ [d] ++ "."%char :: fp ++ "e"%char :: es :: ed).
  assert (E : sign ++ [d] ++ "."%char :: fp ++ "e"%char :: es :: ed
              = (sign ++ [d] ++ "."%char :: fp) ++ "e"%char :: es :: ed).
  { rewrite <- !app_assoc. reflexivity. }
  rewrite E. rewrite split_on_app.
  2:{ intros Hin. apply in_app_or in Hin as [Hin|Hin].
      - destruct Hsign as [->| ->]; [destruct Hin|].
        destruct Hin as [Hin|[]]. discriminate.
      - destruct Hin as [Hin|[Hin|Hin]].
        + subst d. discriminate.
        + discriminate.
        + revert Hin. apply all_digits_not_in; [reflexivity|exact Hfp]. }
  rewrite split_on_no_sep.
  2:{ intros [Hin|Hin].
      - destruct Hes; subst es; discriminate.
      - revert Hin. apply all_digits_not_in; [reflexivity|exact Hed]. }
  destruct (decimal_mantissa_fixed sign [d] fp Hsign ltac:(discriminate)
              ltac:(repeat constructor; exact Hd) Hfp) as [mv ->].
  cbn [mbind option_bind].
  unfold decimal_exponent.
  assert (Eu : unsigned (es :: ed) = ed) by (destruct Hes; subst es; reflexivity).
  rewrite Eu, is_number_digits; [eexists; reflexivity| |exact Hed].
  destruct ed; [simpl in Hlen; lia|discriminate].
Qed.

Lemma written_table_verifies_witness :
  let content := file_content (write_reference_cases (format_f 1) [sample_case]) in
  file_lines (universal_newlines content)
    = write_reference_cases (format_f 1) [sample_case] /\
  verify_count decimal_literal content = (length [sample_case], []) /\
  verify_format decimal_literal content = negb (length [sample_case] =? 0).
Proof.
  apply (written_table_verifies (format_f 1) decimal_literal [sample_case]).
  - intros x. apply (fixed_shape_float_chars 1). apply format_f_shape. discriminate.
  - intros x. apply (decimal_literal_fixed 1). apply format_f_shape. discriminate.
  - apply decimal_literal_fixed.
  - apply decimal_literal_scientific.
Defined.

Example sample_table_verified :
  verify_count decimal_literal
    (file_content (write_reference_cases (format_f 1) [sample_case])) = (1, []) /\
  decimal_literal (list_ascii_of_string "4.123e-04") = Some (4123 # 10000000)%Q.
Proof. split; vm_compute; reflexivity. Qed.

(** * Further properties of the pipeline *)

(** ** Every field is stored or reported *)

Lemma elem_of_rev {A} (x : A) (l : list A) : x ∈ rev l <-> x ∈ l.
Proof. rewrite !list_elem_of_In. symmetry. apply in_rev. Qed.

Section Accounting.
Variable num2date : list Q -> string -> string -> result (list string).
Variable data : gmap string variable.
Variable run : model_run.
Variable key : result_key.

Local Abbreviation extract_ := (extract num2date data run key).
Local Abbreviation step_ := (step num2date data run key).
Local Abbreviation outcome_ := (outcome num2date data run key).
Local Abbreviation failures_ := (failures num2date data run key).

Lemma step_fresh (st : gmap string pyval * list (string * pyexc)) (v : string)
    (items : list string) :
  v ∉ items -> (forall u, u ∈ v :: items -> st.1 !! u = None) ->
  extract_ st.1 v = extract_ ∅ v /\
  forall u, u ∈ items -> (step_ st v).1 !! u = None.
Proof.
  intros Hv Hfresh.
  assert (Eown : extract_ st.1 v = extract_ ∅ v).
  { apply extract_own_entry. rewrite lookup_empty. apply Hfresh. left. }
  split; [exact Eown|].
  intros u Hu. unfold step. rewrite Eown.
  destruct (extract_ ∅ v); simpl.
  - rewrite lookup_insert_ne by (intros ->; tauto). apply Hfresh. right. exact Hu.
  - apply Hfresh. right. exact Hu.
Qed.

Lemma fold_step_report (items : list string) :
  NoDup items ->
  forall st : gmap string pyval * list (string * pyexc),
  (forall v, v ∈ items -> st.1 !! v = None) ->
  (fold_left step_ items st).2 = rev (failures_ items) ++ st.2.
Proof.
  induction 1 as [|v items Hv Hnd IH]; intros st Hfresh; cbn [fold_left].
  - reflexivity.
  - destruct (step_fresh st v items Hv Hfresh) as [Eown Hfresh'].
    rewrite (IH _ Hfresh'). unfold failures. cbn [flat_map].
    rewrite rev_app_distr, <- app_assoc. f_equal.
    unfold step. rewrite Eown. destruct (extract_ ∅ v); reflexivity.
Qed.

Lemma length_failures (items : list string) :
  (length (filter (fun v => is_Some (outcome_ v)) items) + length (failures_ items))%nat
  = length items.
Proof.
  induction items as [|v items IH]; [reflexivity|].
  unfold failures. cbn [flat_map]. rewrite length_app, filter_cons.
  fold (failures_ items).
  destruct (decide (is_Some (outcome_ v))) as [[x Hx]|Hn];
    unfold outcome in *; destruct (extract_ ∅ v) as [y|e]; simpl in *.
  - lia.
  - discriminate.
  - exfalso. apply Hn. eexists. reflexivity.
  - lia.
Qed.

Lemma elem_of_failures (items : list string) (v : string) (e : pyexc) :
  (v, e) ∈ failures_ items <-> v ∈ items /\ extract_ ∅ v = Raise e.
Proof.
  unfold failures. rewrite list_elem_of_In, in_flat_map. split.
  - intros (u & Hu & Hin). destruct (extract_ ∅ u) as [x|e'] eqn:E; [destruct Hin|].
    destruct Hin as [Hin|[]]. injection Hin as <- <-.
    split; [now apply list_elem_of_In|exact E].
  - intros [Hv He]. exists v. split; [now apply list_elem_of_In|].
    rewrite He. left. reflexivity.
Qed.

(** X15: for a batch of distinct field names the loop accounts for every
    field exactly once: a field whose own extraction succeeds is stored with
    that value and not reported, a field whose extraction raises is reported
    with that exception and not stored, nothing outside the batch is stored
    or reported, the report lists the failures in the order of the batch,
    and stored plus reported fields add up to the size of the batch. *)
Theorem extract_all_accounts (items : list string) :
  NoDup items ->
  let fin := extract_all num2date data run key items in
  fin.2 = rev (failures_ items) /\
  (forall v, v ∈ items ->
     match extract_ ∅ v with
     | Ok x => fin.1 !! v = Some x /\ v ∉ fin.2.*1
     | Raise e => fin.1 !! v = None /\ (v, e) ∈ fin.2
     end) /\
  (forall v, v ∉ items -> fin.1 !! v = None /\ v ∉ fin.2.*1) /\
  (size fin.1 + length fin.2)%nat = length items.
Proof.
  intros Hnd fin.
  assert (Hrep : fin.2 = rev (failures_ items)).
  { unfold fin, extract_all. rewrite fold_step_report; [|exact Hnd|intros; apply lookup_empty].
    apply app_nil_r. }
  assert (Hlook : forall w, fin.1 !! w = if decide (w ∈ items) then outcome_ w else None)
    by (intros w; apply extract_all_lookup; exact Hnd).
  assert (Hin : forall v, v ∈ fin.2.*1 <-> v ∈ items /\ exists e, extract_ ∅ v = Raise e).
  { intros v. rewrite Hrep, list_elem_of_fmap. split.
    - intros ([u e] & -> & Hue).
      pose proof (proj1 (elem_of_failures _ _ _) (proj1 (elem_of_rev _ _) Hue)) as [? ?].
      split; [assumption|]. exists e. assumption.
    - intros (Hv & e & He). exists (v, e). split; [reflexivity|].
      apply (proj2 (elem_of_rev _ _)), elem_of_failures. tauto. }
  split; [exact Hrep|]. split; [|split].
  - intros v Hv. rewrite Hlook. destruct (decide (v ∈ items)); [|contradiction].
    unfold outcome. destruct (extract_ ∅ v) as [x|exn] eqn:E.
    + split; [reflexivity|]. rewrite Hin. intros (_ & e' & He). congruence.
    + split; [reflexivity|]. rewrite Hrep. apply (proj2 (elem_of_rev _ _)), elem_of_failures. tauto.
  - intros v Hv. rewrite Hlook. destruct (decide (v ∈ items)); [contradiction|].
    split; [reflexivity|]. rewrite Hin. tauto.
  - rewrite Hrep, length_rev. unfold fin, extract_all.
    rewrite fold_step_size; [|exact Hnd|intros; apply lookup_empty].
    cbn [fst]. rewrite map_size_empty. simpl. apply length_failures.
Qed.
End Accounting.

Lemma extract_all_accounts_witness :
  let items := ["dates"; "N1_p"; "N3_n"; "N5_s"]%string in
  let fin := extract_all sample_num2date sample_profile gotm expected items in
  fin.2 = rev (failures sample_num2date sample_profile gotm expected items) /\
  (forall v, v ∈ items ->
     match extract sample_num2date sample_profile gotm expected ∅ v with
     | Ok x => fin.1 !! v = Some x /\ v ∉ fin.2.*1
     | Raise e => fin.1 !! v = None /\ (v, e) ∈ fin.2
     end) /\
  (forall v, v ∉ items -> fin.1 !! v = None /\ v ∉ fin.2.*1) /\
  (size fin.1 + length fin.2)%nat = length items.
Proof.
  apply (extract_all_accounts sample_num2date sample_profile gotm expected
           ["dates"; "N1_p"; "N3_n"; "N5_s"]%string).
  apply (bool_decide_unpack _). vm_compute. exact I.
Defined.

(** ** The dates *)

Lemma before_sep_cut (s : string) : cut_at_space s (before_sep " " s).
Proof.
  induction s as [|c s [IHn IHp]]; cbn [before_sep].
  - split; [intros [|n]; discriminate|left; reflexivity].
  - destruct (Ascii.eqb c " ") eqn:E.
    + apply Ascii.eqb_eq in E. subst c. split; [intros [|n]; discriminate|].
      right. exists s. reflexivity.
    + split.
      * intros [|n]; cbn [String.get].
        -- intros H. injection H as ->. discriminate.
        -- apply IHn.
      * destruct IHp as [<-|(rest & Hrest)]; [left; reflexivity|].
        right. exists rest. rewrite Hrest at 1. reflexivity.
Qed.

Section Dates.
Variable num2date : list Q -> string -> string -> result (list string).
Variable data : gmap string variable.

(** X16: the [dates] field, under either key and either kind of run: when
    it is stored, it is the list of the date strings that [num2date] returns
    for the time axis, each cut before its first space (the day of
    "YYYY-MM-DD hh:mm:ss"), so no stored date contains a space; when it is
    not, the dataset has no [time] variable (KeyError), the time axis lacks
    [units] or [calendar] (AttributeError), or [num2date] itself raised. *)
Theorem extract_dates (run : model_run) (key : result_key) (r : gmap string pyval) :
  match extract num2date data run key r "dates" with
  | Ok x =>
      exists times units calendar dates,
        data !! "time"%string = Some times /\
        var_units times = Some units /\ var_calendar times = Some calendar /\
        num2date (elems (var_values times)) units calendar = Ok dates /\
        x = VDates (map (before_sep " ") dates) /\
        Forall (fun d => cut_at_space d (before_sep " " d)) dates
  | Raise e =>
      (data !! "time"%string = None /\ e = KeyError "time") \/
      (exists times, data !! "time"%string = Some times /\
         (var_units times = None \/ var_calendar times = None) /\
         e = AttributeError) \/
      (exists times units calendar,
         data !! "time"%string = Some times /\
         var_units times = Some units /\ var_calendar times = Some calendar /\
         num2date (elems (var_values times)) units calendar = Raise e)
  end.
Proof.
  unfold extract. destruct (decide ("dates"%string = "dates"%string)) as [_|[]]; [|reflexivity].
  unfold variables. destruct (data !! "time"%string) as [times|]; cbn.
  2:{ left. split; reflexivity. }
  destruct (var_units times) as [units|] eqn:Eu; cbn.
  2:{ right. left. exists times. split; [reflexivity|]. split; [left; exact Eu|reflexivity]. }
  destruct (var_calendar times) as [calendar|] eqn:Ec; cbn.
  2:{ right. left. exists times. split; [reflexivity|]. split; [right; exact Ec|reflexivity]. }
  destruct (num2date (elems (var_values times)) units calendar) as [dates|e] eqn:En; cbn.
  - exists times, units, calendar, dates. repeat split; try assumption.
    apply List.Forall_forall. intros d _. apply before_sep_cut.
  - right. right. exists times, units, calendar. repeat split; assumption.
Qed.
End Dates.

Example sample_dates :
  extract sample_num2date sample_profile gotm expected ∅ "dates" =
    Ok (VDates ["2000-01-01"; "2000-01-01"; "2000-01-01"]%string).
Proof. vm_compute. reflexivity. Qed.

(** ** A profile run needs the depth variables *)

Section Depth.
Variable num2date : list Q -> string -> string -> result (list string).
Variable data : gmap string variable.

Lemma extract_profile_without_depth (r : gmap string pyval) (v : string) :
  data !! "zi"%string = None \/ data !! "z"%string = None ->
  v <> "dates"%string ->
  exists k, extract num2date data gotm expected r v = Raise (KeyError k) /\
            (k = v \/ k = "zi"%string \/ k = "z"%string).
Proof.
  intros Hmiss Hv. unfold extract.
  destruct (decide (v = "dates"%string)) as [|_]; [contradiction|].
  destruct (decide (expected = expected /\ gotm = gotm)) as [_|Hn]; [|exfalso; tauto].
  unfold variables. destruct (data !! v) as [var|]; cbn.
  2:{ exists v. split; [reflexivity|tauto]. }
  destruct (data !! "zi"%string) as [zi|]; cbn.
  2:{ exists "zi"%string. split; [reflexivity|tauto]. }
  destruct (data !! "z"%string) as [z|]; cbn.
  2:{ exists "z"%string. split; [reflexivity|tauto]. }
  destruct Hmiss; discriminate.
Qed.

(** X17: a profile extraction ([gotm], key [expected]) of a dataset that
    lacks [zi] or [z] stores nothing but, possibly, the dates: every other
    field of the batch is reported with a KeyError naming the field, [zi]
    or [z]. *)
Theorem profile_needs_depth_variables (items : list string) (v : string) :
  data !! "zi"%string = None \/ data !! "z"%string = None ->
  NoDup items -> v <> "dates"%string ->
  let fin := extract_all num2date data gotm expected items in
  fin.1 !! v = None /\
  (v ∈ items ->
   exists k, (v, KeyError k) ∈ fin.2 /\ (k = v \/ k = "zi"%string \/ k = "z"%string)).
Proof.
  intros Hmiss Hnd Hv fin.
  destruct (extract_profile_without_depth ∅ v Hmiss Hv) as (k & Hk & Hwhich).
  split.
  - unfold fin. rewrite extract_all_lookup by exact Hnd.
    destruct (decide (v ∈ items)); [|reflexivity].
    unfold outcome. now rewrite Hk.
  - intros Hin. exists k. split; [|exact Hwhich].
    unfold fin, extract_all. apply fold_step_log; try assumption.
    intros; apply lookup_empty.
Qed.
End Depth.

Lemma profile_needs_depth_variables_witness :
  let items := ["dates"; "N1_p"; "N3_n"; "N5_s"]%string in
  let fin := extract_all sample_num2date sample_box gotm expected items in
  fin.1 !! "N1_p"%string = None /\
  ("N1_p"%string ∈ items ->
   exists k, ("N1_p"%string, KeyError k) ∈ fin.2 /\
             (k = "N1_p"%string \/ k = "zi"%string \/ k = "z"%string)).
Proof.
  apply (profile_needs_depth_variables sample_num2date sample_box
           ["dates"; "N1_p"; "N3_n"; "N5_s"]%string "N1_p").
  - left. reflexivity.
  - apply (bool_decide_unpack _). vm_compute. exact I.
  - discriminate.
Defined.

(** ** State variables of a profile run *)

Lemma take_drop_last (l : list Q) (n : nat) :
  length l = n -> 0 < n -> take 1 (drop (n - 1) l) = [List.last l 0%Q].
Proof.
  intros Hlen Hn. induction l as [|x l' _] using rev_ind.
  - simpl in Hlen. lia.
  - rewrite length_app in Hlen. simpl in Hlen.
    rewrite List.last_last. replace (n - 1) with (length l') by lia.
    rewrite drop_app_length. reflexivity.
Qed.

Section State.
Variable num2date : list Q -> string -> string -> result (list string).
Variable data : gmap string variable.

(** X18: a state variable of rank 3 with shape (nt, 1, 1) in a profile run:
    with at least two timesteps the value stored is the float of the last
    timestep; with a single timestep (or none) [squeeze()] leaves nothing to
    index, IndexError is raised and the field is skipped. *)
Theorem extract_state_rank3 (r : gmap string pyval) (v : string) (var : variable)
    (nt : nat) :
  v <> "dates"%string -> data !! v = Some var ->
  shape (var_values var) = [nt; 1; 1] -> length (elems (var_values var)) = nt ->
  extract num2date data gotm expected_state r v =
    if 2 <=? nt then Ok (VFloat (List.last (elems (var_values var)) 0%Q))
    else Raise IndexError.
Proof.
  intros Hv Hvar Hsh Hlen. unfold extract.
  destruct (decide (v = "dates"%string)) as [|_]; [contradiction|].
  destruct (decide (expected_state = expected /\ gotm = gotm)) as [[? _]|_]; [discriminate|].
  unfold variables. rewrite Hvar. cbn [mbind result_bind].
  unfold ndim. rewrite Hsh. cbn [length Nat.eqb].
  destruct (decide (gotm = fabm0d)) as [|_]; [discriminate|].
  destruct (Nat.leb_spec 2 nt) as [Hnt|Hnt].
  - assert (Esq : shape (squeeze (var_values var)) = [nt]).
    { unfold squeeze. cbn [shape]. rewrite Hsh. cbn [List.filter Nat.eqb negb].
      destruct (Nat.eqb_spec nt 1); [lia|reflexivity]. }
    rewrite (index0_last _ nt [] Esq) by lia. cbn [mbind result_bind].
    unfold float_of. cbn [elems squeeze size_of fold_right].
    rewrite Nat.mul_1_r, (take_drop_last _ nt Hlen) by lia. reflexivity.
  - unfold index0, squeeze. cbn [shape]. rewrite Hsh. cbn [List.filter Nat.eqb negb].
    destruct nt as [|[|nt]]; [reflexivity|reflexivity|lia].
Qed.

(** X19: whatever the dataset, every entry of the [expected_state]
    dictionary of a profile run is a Python float, stored under the name of
    a state variable that has rank 3 in the dataset. *)
Theorem expected_state_holds_floats (v : string) (x : pyval) :
  (extract_all num2date data gotm expected_state state_vars).1 !! v = Some x ->
  v ∈ state_vars /\
  exists var q, data !! v = Some var /\ ndim (var_values var) = 3 /\ x = VFloat q.
Proof.
  rewrite extract_all_lookup by exact state_vars_NoDup.
  destruct (decide (v ∈ state_vars)) as [Hin|]; [|discriminate].
  intros Hout. split; [exact Hin|].
  assert (Hv : v <> "dates"%string).
  { intros ->. now apply dates_not_state_var. }
  unfold outcome, extract in Hout.
  destruct (decide (v = "dates"%string)) as [|_]; [contradiction|].
  destruct (decide (expected_state = expected /\ gotm = gotm)) as [[? _]|_]; [discriminate|].
  unfold variables in Hout. destruct (data !! v) as [var|]; [|discriminate].
  cbn [mbind result_bind] in Hout. exists var.
  destruct (decide (gotm = fabm0d)) as [|_]; [discriminate|].
  destruct (ndim (var_values var) =? 4) eqn:E4.
  - unfold stored in Hout. rewrite lookup_empty in Hout. discriminate.
  - destruct (Nat.eqb_spec (ndim (var_values var)) 3) as [E3|E3]; [|discriminate].
    destruct (index0 (squeeze (var_values var)) (-1)) as [last|]; [|discriminate].
    cbn [mbind result_bind] in Hout.
    destruct (float_of last) as [q|]; [|discriminate].
    exists q. cbn in Hout. injection Hout as <-. split; [reflexivity|]. split; [exact E3|reflexivity].
Qed.
End State.

Lemma extract_state_rank3_witness :
  extract sample_num2date sample_profile gotm expected_state ∅ "G2_o" =
    if 2 <=? 3 then Ok (VFloat (List.last [7; 8; 9]%Q 0%Q)) else Raise IndexError.
Proof.
  apply (extract_state_rank3 sample_num2date sample_profile ∅ "G2_o"
           (plain (mk_array [3; 1; 1] [7; 8; 9]%Q)) 3).
  - discriminate.
  - vm_compute. reflexivity.
  - reflexivity.
  - reflexivity.
Defined.

Lemma expected_state_holds_floats_witness :
  "G2_o"%string ∈ state_vars /\
  exists var q, sample_profile !! "G2_o"%string = Some var /\
                ndim (var_values var) = 3 /\ VFloat 9 = VFloat q.
Proof.
  apply (expected_state_holds_floats sample_num2date sample_profile "G2_o" (VFloat 9)).
  vm_compute. reflexivity.
Defined.

(** ** A box run *)

Lemma squeeze_no_unit_axis (a : ndarray) : ~ In 1 (shape (squeeze a)).
Proof.
  unfold squeeze. cbn [shape]. intros Hin. apply filter_In in Hin as [_ H1]. discriminate.
Qed.

Lemma squeeze_idempotent (a : ndarray) : squeeze (squeeze a) = squeeze a.
Proof.
  unfold squeeze. cbn [shape elems]. f_equal.
  induction (shape a) as [|n sh IH]; [reflexivity|].
  cbn [List.filter]. destruct (negb (n =? 1)) eqn:E; [|exact IH].
  cbn [List.filter]. rewrite E. f_equal. exact IH.
Qed.

Section Box.
Variable num2date : list Q -> string -> string -> result (list string).
Variable data : gmap string variable.

(** X20: in a box run ([fabm0d]) a field other than the dates is stored
    exactly when its rank is 3 or 4, under either key and without reading
    [time], [zi] or [z]; what is stored is the variable with its axes of
    length one removed: the same values in the same order, the same number
    of elements, and no axis of length one left.  A variable of any other
    rank raises RuntimeError. *)
Theorem extract_fabm0d (key : result_key) (r : gmap string pyval) (v : string)
    (var : variable) :
  v <> "dates"%string -> data !! v = Some var ->
  (if (ndim (var_values var) =? 4) || (ndim (var_values var) =? 3)
   then exists a,
          extract num2date data fabm0d key r v = Ok (VArray a) /\
          elems a = elems (var_values var) /\
          shape a = List.filter (fun n => negb (n =? 1)) (shape (var_values var)) /\
          ~ In 1 (shape a) /\
          size_of (shape a) = size_of (shape (var_values var)) /\
          squeeze a = a
   else extract num2date data fabm0d key r v = Raise RuntimeError).
Proof.
  intros Hv Hvar.
  assert (E : extract num2date data fabm0d key r v =
              if (ndim (var_values var) =? 4) || (ndim (var_values var) =? 3)
              then Ok (VArray (squeeze (var_values var))) else Raise RuntimeError).
  { unfold extract.
    destruct (decide (v = "dates"%string)) as [|_]; [contradiction|].
    destruct (decide (key = expected /\ fabm0d = gotm)) as [[_ ?]|_]; [discriminate|].
    unfold variables. rewrite Hvar. cbn [mbind result_bind].
    destruct (decide (fabm0d = fabm0d)) as [_|[]]; [|reflexivity].
    destruct (ndim (var_values var) =? 4); [reflexivity|].
    destruct (ndim (var_values var) =? 3); reflexivity. }
  rewrite E.
  destruct ((ndim (var_values var) =? 4) || (ndim (var_values var) =? 3)); [|reflexivity].
  exists (squeeze (var_values var)). split; [reflexivity|].
  split; [reflexivity|]. split; [reflexivity|].
  split; [apply squeeze_no_unit_axis|].
  split; [apply size_of_squeeze|apply squeeze_idempotent].
Qed.
End Box.

Lemma extract_fabm0d_witness :
  if (ndim (mk_array [3; 1; 1] [1; 2; 3]%Q) =? 4) || (ndim (mk_array [3; 1; 1] [1; 2; 3]%Q) =? 3)
  then exists a,
         extract sample_num2date sample_box fabm0d expected ∅ "N1_p" = Ok (VArray a) /\
         elems a = [1; 2; 3]%Q /\
         shape a = List.filter (fun n => negb (n =? 1)) [3; 1; 1] /\
         ~ In 1 (shape a) /\
         size_of (shape a) = size_of [3; 1; 1] /\
         squeeze a = a
  else extract sample_num2date sample_box fabm0d expected ∅ "N1_p" = Raise RuntimeError.
Proof.
  apply (extract_fabm0d sample_num2date sample_box expected ∅ "N1_p"
           (plain (mk_array [3; 1; 1] [1; 2; 3]%Q))).
  - discriminate.
  - vm_compute. reflexivity.
Defined.

(** ** The interpolated surface value *)



Lemma interp1_at_or_above (x : Q) (xp fp : list Q) :
  xp <> [] -> length fp = length xp -> increasing xp ->
  (List.last xp 0 <= x)%Q ->
  interp1 x xp fp = List.last fp 0%Q.
Proof.
  intros Hne Hlen Hinc Hlast.
  assert (Hall : Forall (fun xi => (xi <= x)%Q) xp).
  { eapply List.Forall_impl; [|apply (increasing_le_last xp 0%Q Hinc)].
    intros a Ha. simpl in Ha. lra. }
  destruct xp as [|x0 xp]; [congruence|]. destruct fp as [|y0 fp]; [discriminate|].
  unfold interp1.
  assert (Hx0 : (x0 <= x)%Q) by (inversion Hall; assumption).
  apply Qlt_bool_false in Hx0. rewrite Hx0.
  apply interp_from_above; assumption.
Qed.

(** X21: when the last interface [zi[i, -1]] lies at or above the last
    layer centre [z[i, -1]], as it does on a vertical grid whose centres lie
    between their interfaces, the value the profile branch stores for
    timestep i is the field's value in the last (surface) layer,
    [var[i, -1]]. *)
Theorem interpolated_surface_value (zi z var : ndarray) (L1 L i : nat) (d : Q) :
  row_of zi L1 i !! (L1 - 1) = Some d ->
  row_of z L i <> [] -> length (row_of var L i) = length (row_of z L i) ->
  increasing (row_of z L i) ->
  (List.last (row_of z L i) 0 <= d)%Q ->
  interpolated zi z var L1 L i =
    {| shape := []; elems := [List.last (row_of var L i) 0%Q] |}.
Proof.
  intros Hd Hne Hlen Hinc Htop.
  rewrite (interpolated_at zi z var L1 L i d Hd).
  rewrite interp1_at_or_above; try assumption; [reflexivity|lra].
Qed.

Lemma interpolated_surface_value_witness :
  interpolated
    (mk_array [3; 4; 1; 1] [-3; 2; 7; 5; -3; 2; 7; -1; -3; 2; 7; 12]%Q)
    (mk_array [3; 3; 1; 1] [0; 5; 10; 0; 5; 10; 0; 5; 10]%Q)
    (mk_array [3; 3; 1; 1] [1; 2; 3; 1; 2; 3; 1; 2; 4]%Q) 4 3 2 =
    {| shape := [];
       elems := [List.last
                   (row_of (mk_array [3; 3; 1; 1] [1; 2; 3; 1; 2; 3; 1; 2; 4]%Q) 3 2)
                   0%Q] |}.
Proof.
  apply (interpolated_surface_value
           (mk_array [3; 4; 1; 1] [-3; 2; 7; 5; -3; 2; 7; -1; -3; 2; 7; 12]%Q)
           (mk_array [3; 3; 1; 1] [0; 5; 10; 0; 5; 10; 0; 5; 10]%Q)
           (mk_array [3; 3; 1; 1] [1; 2; 3; 1; 2; 3; 1; 2; 4]%Q) 4 3 2 12%Q).
  - reflexivity.
  - discriminate.
  - reflexivity.
  - vm_compute. repeat split; discriminate.
  - vm_compute. discriminate.
Defined.



Lemma mapM_raises {A B} (f : A -> result B) (l : list A) (a : A) (e : pyexc) :
  a ∈ l -> f a = Raise e -> (forall a' e', f a' = Raise e' -> e' = e) ->
  mapM f l = Raise e.
Proof.
  intros Ha Hf Hall. induction l as [|b l IH].
  - exfalso. revert Ha. apply not_elem_of_nil.
  - cbn [mapM]. destruct (f b) as [y|e'] eqn:Eb.
    + cbn [mbind result_bind]. apply elem_of_cons in Ha as [->|Ha]; [congruence|].
      rewrite (IH Ha). reflexivity.
    + cbn. f_equal. eapply Hall. exact Eb.
Qed.

Lemma NumpyEncoder_default_raises (a : ndarray) (e : pyexc) :
  NumpyEncoder_default a = Raise e -> e = TypeError.
Proof.
  unfold NumpyEncoder_default. destruct (shape a) as [|n [|m sh]]; try discriminate.
  - congruence.
  - destruct (n =? 0); [discriminate|congruence].
Qed.

Lemma mapM_raises_only {A B} (f : A -> result B) (l : list A) (e0 e : pyexc) :
  (forall a e', f a = Raise e' -> e' = e0) -> mapM f l = Raise e -> e = e0.
Proof.
  intros Hall. induction l as [|b l IH]; [discriminate|].
  cbn [mapM]. destruct (f b) as [y|e'] eqn:Eb; cbn.
  - destruct (mapM f l); cbn; [discriminate|]. intros H. injection H as <-. now apply IH.
  - intros H. injection H as <-. eapply Hall. exact Eb.
Qed.

Lemma to_json_raises (x : pyval) (e : pyexc) : to_json x = Raise e -> e = TypeError.
Proof.
  destruct x as [ds|xs|a|q]; cbn; try discriminate.
  - destruct (mapM item_to_json xs) as [js|e1] eqn:E; cbn; [discriminate|].
    intros H. injection H as <-. revert E. apply mapM_raises_only.
    intros a e2. unfold item_to_json.
    destruct (shape a) as [|n sh] eqn:Es; [destruct (elems a) as [|y [|z l]]|]; try discriminate;
      (destruct (NumpyEncoder_default a) eqn:Ed; cbn; [discriminate|];
       intros H; injection H as <-; now apply (NumpyEncoder_default_raises a)).
  - destruct (NumpyEncoder_default a) eqn:Ed; cbn; [discriminate|].
    intros H. injection H as <-. now apply (NumpyEncoder_default_raises a).
Qed.

Lemma json_dump_raises (d : gmap string pyval) (v : string) (x : pyval) :
  d !! v = Some x -> to_json x = Raise TypeError -> json_dump d = Raise TypeError.
Proof.
  intros Hv Hx. unfold json_dump.
  rewrite (mapM_raises _ (map_to_list d) (v, x) TypeError).
  - reflexivity.
  - now apply elem_of_map_to_list.
  - cbn. now rewrite Hx.
  - intros [k y] e'. cbn. destruct (to_json y) eqn:Ey; cbn; [discriminate|].
    intros H. injection H as <-. now apply (to_json_raises y).
Qed.

Section Dump.
Variable num2date : list Q -> string -> string -> result (list string).
Variable data : gmap string variable.

(** X23: a box-run field of shape (nt, 1, 1) or (nt, 1, 1, 1) is stored as
    an array of shape (nt,) when nt is not 1, which [NumpyEncoder] writes as
    the list of its values; with a single timestep [squeeze()] leaves a 0-d
    array, whose [tolist()] is not iterable, and [json.dump] of the result
    dictionary raises TypeError. *)
Theorem box_field_dump (key : result_key) (items : list string) (v : string)
    (var : variable) (nt : nat) :
  NoDup items -> v ∈ items -> v <> "dates"%string -> data !! v = Some var ->
  shape (var_values var) = [nt; 1; 1] \/ shape (var_values var) = [nt; 1; 1; 1] ->
  let fin := extract_all num2date data fabm0d key items in
  let a := {| shape := if nt =? 1 then [] else [nt];
              elems := elems (var_values var) |} in
  fin.1 !! v = Some (VArray a) /\
  (nt = 1 -> json_dump fin.1 = Raise TypeError) /\
  (nt <> 1 -> to_json (VArray a) = Ok (JArray (map JNumber (elems (var_values var))))).
Proof.
  intros Hnd Hin Hv Hvar Hsh fin a.
  assert (Hsq : squeeze (var_values var) = a).
  { unfold squeeze, a. f_equal.
    destruct Hsh as [-> | ->]; cbn [List.filter Nat.eqb negb];
      destruct (nt =? 1); reflexivity. }
  assert (Hstored : fin.1 !! v = Some (VArray a)).
  { unfold fin. rewrite extract_all_lookup by exact Hnd.
    destruct (decide (v ∈ items)); [|contradiction].
    pose proof (extract_fabm0d num2date data key ∅ v var Hv Hvar) as Hx.
    assert (Hrank : (ndim (var_values var) =? 4) || (ndim (var_values var) =? 3) = true).
    { unfold ndim. destruct Hsh as [-> | ->]; reflexivity. }
    rewrite Hrank in Hx. destruct Hx as (a' & Ha' & Hel & Hshape & _).
    unfold outcome. rewrite Ha'. do 2 f_equal. rewrite <- Hsq.
    destruct a' as [sh' el']. cbn in *. unfold squeeze. now rewrite Hel, Hshape. }
  split; [exact Hstored|]. split.
  - intros ->. apply (json_dump_raises fin.1 v (VArray a) Hstored). reflexivity.
  - intros Hnt. unfold a. cbn. unfold NumpyEncoder_default. cbn [shape].
    destruct (Nat.eqb_spec nt 1); [contradiction|reflexivity].
Qed.
End Dump.

Lemma box_field_dump_witness :
  let items := ["dates"; "light_parEIR"; "temp"; "salt"; "N1_p"; "N3_n"; "B1_c"; "P2_c"]%string in
  let fin := extract_all sample_num2date single_step_box fabm0d expected items in
  let a := {| shape := if 1 =? 1 then [] else [1]; elems := [1%Q] |} in
  fin.1 !! "N1_p"%string = Some (VArray a) /\
  (1 = 1 -> json_dump fin.1 = Raise TypeError) /\
  (1 <> 1 -> to_json (VArray a) = Ok (JArray (map JNumber [1%Q]))).
Proof.
  apply (box_field_dump sample_num2date single_step_box expected
           ["dates"; "light_parEIR"; "temp"; "salt"; "N1_p"; "N3_n"; "B1_c"; "P2_c"]%string
           "N1_p" (plain (mk_array [1; 1; 1] [1]%Q)) 1).
  - apply (bool_decide_unpack _). vm_compute. exact I.
  - apply (bool_decide_unpack _). vm_compute. exact I.
  - discriminate.
  - vm_compute. reflexivity.
  - left. reflexivity.
Defined.

Example sample_box_dump :
  (json_dump (extract_all sample_num2date sample_box fabm0d expected
                ["dates"; "temp"; "N1_p"]%string).1) =
    Ok (list_to_map
          [ ("dates"%string, JArray [JString "2000-01-01"; JString "2000-01-01";
                                     JString "2000-01-01"]);
            ("temp"%string, JArray [JNumber 10; JNumber 11; JNumber 12]);
            ("N1_p"%string, JArray [JNumber 1; JNumber 2; JNumber 3]) ]).
Proof. vm_compute. reflexivity. Qed.
